(** * Cloud Tasks emulator: task lifecycle and registry lookups

    A shallow embedding of [task.go] (task state updates, the reschedule
    decision, [Attempt] and [Run]) and of the lookup handlers of the
    emulator server, together with the properties of the specification
    that concern them.

    Conventions.  Go's fixed-width integers are values of [Z] with the
    wrap-around of every arithmetic operation written out ([int32],
    [int64], [uint32]).  A nil protobuf message is [None]; the generated
    nil-safe getters ([GetSeconds], [GetNanos], ...) return the zero value
    on [None].  A nil pointer dereference is the result [Panic]. *)

From Stdlib Require Import ZArith Lia Bool List.
From stdpp Require Import base option strings pretty gmap.

Local Open Scope Z_scope.

(** ** Fixed-width integers *)

Module GoInt.

(** Two's complement reduction of [x] to a signed [w]-bit integer. *)
Definition wrap (w : Z) (x : Z) : Z :=
  (x + 2 ^ (w - 1)) mod 2 ^ w - 2 ^ (w - 1).

Definition int32 (x : Z) : Z := wrap 32 x.
Definition int64 (x : Z) : Z := wrap 64 x.
Definition uint32 (x : Z) : Z := x mod 2 ^ 32.

Definition minInt32 : Z := - 2 ^ 31.
Definition maxInt32 : Z := 2 ^ 31 - 1.
Definition minInt64 : Z := - 2 ^ 63.
Definition maxInt64 : Z := 2 ^ 63 - 1.

Definition in_int32 (x : Z) : Prop := minInt32 <= x <= maxInt32.
Definition in_int64 (x : Z) : Prop := minInt64 <= x <= maxInt64.

(** [x << s] on an [int64] left operand and an unsigned shift count:
    a count of 64 or more shifts every bit out. *)
Definition shl64 (x s : Z) : Z :=
  if 64 <=? s then 0 else int64 (Z.shiftl x s).

End GoInt.
Import GoInt.

(** ** Protobuf messages *)

(** [google.protobuf.Timestamp]: [int64] seconds and [int32] nanos. *)
Record Timestamp := mkTimestamp { ts_Seconds : Z; ts_Nanos : Z }.

(** [google.protobuf.Duration]: [int64] seconds and [int32] nanos. *)
Record Duration := mkDuration { d_Seconds : Z; d_Nanos : Z }.

(** [google.rpc.Status], as far as the emulator fills it. *)
Record Status := mkStatus { st_Code : Z; st_Message : string }.

(** The messages of the Cloud Tasks API package, [tasks]. *)
Module tasks.

(** [tasks.Attempt]. *)
Record Attempt := mkAttempt {
  at_ScheduleTime : option Timestamp;
  at_DispatchTime : option Timestamp;
  at_ResponseTime : option Timestamp;
  at_ResponseStatus : option Status
}.

(** [tasks.RetryConfig]: [MaxAttempts] and [MaxDoublings] are [int32]. *)
Record RetryConfig := mkRetryConfig {
  MaxAttempts : Z;
  MinBackoff : option Duration;
  MaxBackoff : option Duration;
  MaxDoublings : Z
}.

(** [tasks.Queue], as far as the task code reads it; named after the
    variables that hold it. *)
Record QueueState := mkQueueState {
  qs_Name : string;
  qs_RetryConfig : option RetryConfig
}.

(** [tasks.Task], the fields the state updates read or write; named
    after the variables that hold it.
    [DispatchCount] and [ResponseCount] are [int32]. *)
Record TaskState := mkTaskState {
  Name : string;
  ScheduleTime : option Timestamp;
  CreateTime : option Timestamp;
  DispatchDeadline : option Duration;
  DispatchCount : Z;
  ResponseCount : Z;
  FirstAttempt : option Attempt;
  LastAttempt : option Attempt
}.

End tasks.
Import tasks.

(** Nil-safe getters generated for the messages. *)
Definition GetSeconds (t : option Timestamp) : Z :=
  match t with Some t => ts_Seconds t | None => 0 end.

Definition GetNanos (t : option Timestamp) : Z :=
  match t with Some t => ts_Nanos t | None => 0 end.

Definition GetMinBackoff (rc : option RetryConfig) : option Duration :=
  match rc with Some rc => MinBackoff rc | None => None end.

Definition GetMaxBackoff (rc : option RetryConfig) : option Duration :=
  match rc with Some rc => MaxBackoff rc | None => None end.

Definition GetMaxAttempts (rc : option RetryConfig) : Z :=
  match rc with Some rc => MaxAttempts rc | None => 0 end.

Definition GetRetryConfig (q : option QueueState) : option RetryConfig :=
  match q with Some q => qs_RetryConfig q | None => None end.

(** ** The [ptypes] conversions between [Duration] and [time.Duration]

    [time.Duration] is an [int64] count of nanoseconds.  These two
    functions belong to the protobuf runtime the task code calls; they are
    transcribed from that library. *)

Module ptypes.

Definition second : Z := 1000000000.

(** About 10,000 years, the range of a [Duration] message. *)
Definition maxSeconds : Z := 315576000000.
Definition minSeconds : Z := - maxSeconds.

Definition validateDuration (d : Duration) : bool :=
  if (d_Seconds d <? minSeconds) || (maxSeconds <? d_Seconds d) then false
  else if (d_Nanos d <=? - second) || (second <=? d_Nanos d) then false
  else if ((d_Seconds d <? 0) && (0 <? d_Nanos d))
          || ((0 <? d_Seconds d) && (d_Nanos d <? 0)) then false
  else true.

(** [ptypes.DurationProto]: split nanoseconds by truncated division. *)
Definition DurationProto (d : Z) : Duration :=
  let nanos := d in
  let secs := Z.quot nanos second in
  let nanos := int64 (nanos - int64 (secs * second)) in
  {| d_Seconds := secs; d_Nanos := int32 nanos |}.

(** [ptypes.Duration]: the value returned; on any error it is [0], and
    the callers in [task.go] discard the error. *)
Definition Duration (p : option Duration) : Z :=
  match p with
  | None => 0
  | Some p =>
    if negb (validateDuration p) then 0 else
    let d := int64 (d_Seconds p * second) in
    if negb (Z.quot d second =? d_Seconds p) then 0 else
    if d_Nanos p =? 0 then d else
    let d' := int64 (d + d_Nanos p) in
    if negb (Bool.eqb (d' <? 0) (d_Nanos p <? 0)) then 0 else d'
  end.

End ptypes.

(** Nanoseconds denoted by a message, as an unbounded integer. *)
Definition duration_nanos (d : Duration) : Z :=
  d_Seconds d * ptypes.second + d_Nanos d.

Definition timestamp_nanos (t : Timestamp) : Z :=
  ts_Seconds t * ptypes.second + ts_Nanos t.

(** A duration that [ptypes.Duration] converts without error. *)
Definition duration_ok (d : Duration) : Prop :=
  ptypes.validateDuration d = true /\ in_int64 (duration_nanos d).

(** ** Backoff and the next schedule time ([updateStateForReschedule])

    The two computations in the body of [updateStateForReschedule] are
    named so that they can be stated about on their own. *)

(** Lines 145-155: the doubling count is [DispatchCount - 1] capped at
    [MaxDoublings]; the backoff is [minBackoff * (1 << doubling)] in
    [time.Duration] arithmetic, capped at [maxBackoff]. *)
Definition reschedule_backoff (retryConfig : RetryConfig) (dispatchCount : Z) : Z :=
  let minBackoff := ptypes.Duration (MinBackoff retryConfig) in
  let maxBackoff := ptypes.Duration (MaxBackoff retryConfig) in
  let doubling := int32 (dispatchCount - 1) in
  let doubling :=
    if MaxDoublings retryConfig <? doubling then MaxDoublings retryConfig
    else doubling in
  let backoff := int64 (minBackoff * shl64 1 (uint32 doubling)) in
  if maxBackoff <? backoff then maxBackoff else backoff.

(** Lines 157-170: nanos are added as [int64], seconds as [int64]; a nanos
    sum of a second or more is carried into the seconds. *)
Definition reschedule_time (prevScheduleTime : option Timestamp)
    (protoBackoff : Duration) : Timestamp :=
  let scheduleNanos := int64 (GetNanos prevScheduleTime + d_Nanos protoBackoff) in
  let scheduleSeconds := int64 (GetSeconds prevScheduleTime + d_Seconds protoBackoff) in
  if ptypes.second <=? scheduleNanos then
    {| ts_Nanos := int32 (int64 (scheduleNanos - ptypes.second));
       ts_Seconds := int64 (scheduleSeconds + 1) |}
  else
    {| ts_Nanos := int32 scheduleNanos; ts_Seconds := scheduleSeconds |}.

(** ** Tasks and the world they run in *)

(** The owning queue, as far as [task.go] reads it. *)
Record Queue := mkQueue { q_name : string; q_state : option QueueState }.

(** [Task]: the queue and the live state message.  The mutex only
    serialises the state updates, which are atomic steps here; the cancel
    channel and its once-guard are read by the goroutine of [Schedule]
    alone, which is not part of the model. *)
Record Task := mkTask { queue : Queue; state : TaskState }.

(** What a task does to its surroundings. *)
Inductive Event :=
  | Log (msg : string)                 (* log.Println *)
  | OnDone                             (* task.onDone(task) *)
  | Armed (scheduled : option Timestamp) (now : Timestamp)
                                       (* the wait started by Schedule *)
  | GoDoDispatch (retry : bool).       (* go task.doDispatch(retry) *)

(** The clock is an oracle: its [n]-th reading is [w_now n]. *)
Record World := mkWorld {
  w_task : Task;
  w_now : nat -> Timestamp;
  w_reads : nat;
  w_trace : list Event
}.

(** A pointer to a task state message: the live message of the task, or
    a message freshly allocated by [proto.Clone], which nothing else
    references. *)
Inductive StatePtr :=
  | Live
  | Cloned (frozen : TaskState).

Definition deref (w : World) (p : StatePtr) : TaskState :=
  match p with
  | Live => state (w_task w)
  | Cloned frozen => frozen
  end.

(** Computations: a new world, or a run-time panic. *)
Inductive Result (A : Type) :=
  | Ok (a : A) (w : World)
  | Panic.
Arguments Ok {A} a w.
Arguments Panic {A}.

Definition M (A : Type) : Type := World -> Result A.

Definition ret {A} (a : A) : M A := fun w => Ok a w.

Definition bind {A B} (m : M A) (k : A -> M B) : M B :=
  fun w => match m w with Ok a w' => k a w' | Panic => Panic end.

Declare Scope go_scope.
Delimit Scope go_scope with go.
Notation "x <- m ;; k" := (bind m (fun x => k))
  (at level 100, m at next level, k at level 200, right associativity) : go_scope.
Notation "m ;; k" := (bind m (fun _ => k))
  (at level 100, k at level 200, right associativity) : go_scope.
Local Open Scope go_scope.

Definition panic {A} : M A := fun _ => Panic.

Definition get_task : M Task := fun w => Ok (w_task w) w.

Definition put_state (s : TaskState) : M unit := fun w =>
  Ok tt {| w_task := {| queue := queue (w_task w); state := s |};
           w_now := w_now w; w_reads := w_reads w; w_trace := w_trace w |}.

Definition emit (e : Event) : M unit := fun w =>
  Ok tt {| w_task := w_task w; w_now := w_now w; w_reads := w_reads w;
           w_trace := w_trace w ++ [e] |}.

(** [ptypes.TimestampNow()] and [time.Now()]: the next clock reading. *)
Definition TimestampNow : M Timestamp := fun w =>
  Ok (w_now w (w_reads w))
     {| w_task := w_task w; w_now := w_now w; w_reads := S (w_reads w);
        w_trace := w_trace w |}.

Definition proto_Clone (s : TaskState) : M StatePtr := ret (Cloned s).

(** Field assignments. *)
Definition set_ScheduleTime (s : TaskState) (t : option Timestamp) : TaskState :=
  {| Name := Name s; ScheduleTime := t; CreateTime := CreateTime s;
     DispatchDeadline := DispatchDeadline s; DispatchCount := DispatchCount s;
     ResponseCount := ResponseCount s; FirstAttempt := FirstAttempt s;
     LastAttempt := LastAttempt s |}.

Definition set_DispatchCount (s : TaskState) (n : Z) : TaskState :=
  {| Name := Name s; ScheduleTime := ScheduleTime s; CreateTime := CreateTime s;
     DispatchDeadline := DispatchDeadline s; DispatchCount := n;
     ResponseCount := ResponseCount s; FirstAttempt := FirstAttempt s;
     LastAttempt := LastAttempt s |}.

Definition set_ResponseCount (s : TaskState) (n : Z) : TaskState :=
  {| Name := Name s; ScheduleTime := ScheduleTime s; CreateTime := CreateTime s;
     DispatchDeadline := DispatchDeadline s; DispatchCount := DispatchCount s;
     ResponseCount := n; FirstAttempt := FirstAttempt s;
     LastAttempt := LastAttempt s |}.

Definition set_FirstAttempt (s : TaskState) (a : option Attempt) : TaskState :=
  {| Name := Name s; ScheduleTime := ScheduleTime s; CreateTime := CreateTime s;
     DispatchDeadline := DispatchDeadline s; DispatchCount := DispatchCount s;
     ResponseCount := ResponseCount s; FirstAttempt := a;
     LastAttempt := LastAttempt s |}.

Definition set_LastAttempt (s : TaskState) (a : option Attempt) : TaskState :=
  {| Name := Name s; ScheduleTime := ScheduleTime s; CreateTime := CreateTime s;
     DispatchDeadline := DispatchDeadline s; DispatchCount := DispatchCount s;
     ResponseCount := ResponseCount s; FirstAttempt := FirstAttempt s;
     LastAttempt := a |}.

(** ** The state updates of [task.go] *)

(** [toRPCStatusCode] and [toCodeName] are defined outside [task.go]; the
    task code is modelled for any pair of them. *)
Class StatusMapper := {
  toRPCStatusCode : Z -> Z;
  toCodeName : Z -> string
}.

(** [strconv.Itoa] and the [%d] verb: decimal digits, with a sign. *)
Definition Itoa (n : Z) : string := pretty n.

Section TaskOperations.
Context {mapper : StatusMapper}.

Definition updateStateForReschedule : M StatePtr :=
  task <- get_task ;;
  let taskState := state task in
  let queueState := q_state (queue task) in
  let retryConfig := GetRetryConfig queueState in
  match retryConfig with
  | None => panic                      (* retryConfig.MaxDoublings on nil *)
  | Some rc =>
    let backoff := reschedule_backoff rc (DispatchCount taskState) in
    let protoBackoff := ptypes.DurationProto backoff in
    let prevScheduleTime := ScheduleTime taskState in
    let taskState :=
      set_ScheduleTime taskState
        (Some (reschedule_time prevScheduleTime protoBackoff)) in
    put_state taskState ;;
    proto_Clone taskState
  end.

Definition updateStateForDispatch : M StatePtr :=
  task <- get_task ;;
  let taskState := state task in
  dispatchTime <- TimestampNow ;;
  let taskState :=
    set_LastAttempt taskState
      (Some {| at_ScheduleTime :=
                 Some {| ts_Nanos := GetNanos (ScheduleTime taskState);
                         ts_Seconds := GetSeconds (ScheduleTime taskState) |};
               at_DispatchTime := Some dispatchTime;
               at_ResponseTime := None;
               at_ResponseStatus := None |}) in
  let taskState :=
    set_DispatchCount taskState (int32 (DispatchCount taskState + 1)) in
  let taskState :=
    match FirstAttempt taskState with
    | None =>
      set_FirstAttempt taskState
        (Some {| at_ScheduleTime := None;
                 at_DispatchTime := Some dispatchTime;
                 at_ResponseTime := None;
                 at_ResponseStatus := None |})
    | Some _ => taskState
    end in
  put_state taskState ;;
  proto_Clone taskState.

Definition updateStateAfterDispatch (statusCode : Z) : M StatePtr :=
  task <- get_task ;;
  let taskState := state task in
  let rpcCode := toRPCStatusCode statusCode in
  let rpcCodeName := toCodeName rpcCode in
  match LastAttempt taskState with
  | None => panic                      (* lastAttempt.ResponseTime on nil *)
  | Some lastAttempt =>
    responseTime <- TimestampNow ;;
    let lastAttempt :=
      {| at_ScheduleTime := at_ScheduleTime lastAttempt;
         at_DispatchTime := at_DispatchTime lastAttempt;
         at_ResponseTime := Some responseTime;
         at_ResponseStatus :=
           Some {| st_Code := rpcCode;
                   st_Message :=
                     rpcCodeName +:+ "(" +:+ Itoa rpcCode
                     +:+ "): HTTP status code " +:+ Itoa statusCode |} |} in
    let taskState := set_LastAttempt taskState (Some lastAttempt) in
    let taskState :=
      set_ResponseCount taskState (int32 (ResponseCount taskState + 1)) in
    put_state taskState ;;
    proto_Clone taskState
  end.

(** [Schedule]: reads the schedule time and the clock and starts the
    wait; the wait itself runs in a goroutine of its own. *)
Definition Schedule : M unit :=
  task <- get_task ;;
  let scheduled := ScheduleTime (state task) in
  now <- TimestampNow ;;
  emit (Armed scheduled now).

Definition reschedule (retry : bool) (statusCode : Z) : M unit :=
  if (200 <=? statusCode) && (statusCode <=? 299) then
    emit (Log "Task done") ;;
    emit OnDone
  else
    emit (Log ("Task exec error with status " +:+ Itoa statusCode)) ;;
    if retry then
      task <- get_task ;;
      let retryConfig := GetRetryConfig (q_state (queue task)) in
      if GetMaxAttempts retryConfig <=? DispatchCount (state task) then
        emit (Log "Ran out of attempts")
      else
        updateStateForReschedule ;;
        Schedule
    else ret tt.

(** [doDispatch]: [respCode] is what the network call of [dispatch]
    returned, a status code or the sentinel [-1]. *)
Definition doDispatch (respCode : Z) (retry : bool) : M unit :=
  updateStateAfterDispatch respCode ;;
  reschedule retry respCode.

Definition Attempt (respCode : Z) : M unit :=
  updateStateForDispatch ;;
  doDispatch respCode true.

(** [Run] returns once the goroutine for [doDispatch(false)] is
    started; that goroutine is [doDispatch respCode false], run later. *)
Definition Run : M StatePtr :=
  taskState <- updateStateForDispatch ;;
  emit (GoDoDispatch false) ;;
  ret taskState.

End TaskOperations.

(** Observations of a finished computation. *)
Definition events_since (w w' : World) : list Event :=
  drop (length (w_trace w)) (w_trace w').

Definition is_OnDone (e : Event) : bool :=
  match e with OnDone => true | _ => false end.

Definition is_Armed (e : Event) : bool :=
  match e with Armed _ _ => true | _ => false end.

Definition count_events (p : Event -> bool) (l : list Event) : nat :=
  length (filter (fun e => p e = true) l).

(** ** The registry of the emulator server *)

Module Registry.

Inductive Code :=
  | InvalidArgument
  | NotFound
  | AlreadyExists
  | FailedPrecondition
  | Unimplemented.

Record Error := Errorf { err_code : Code; err_msg : string }.

(** A handler answers, reports an error, or faults on a nil pointer. *)
Inductive Reply (A : Type) :=
  | Resp (a : A)
  | Fail (e : Error)
  | Fault.
Arguments Resp {A} a.
Arguments Fail {A} e.
Arguments Fault {A}.

(** The two maps of [Server]; a key bound to [None] is a nil entry. *)
Record Server := mkServer {
  qs : gmap string (option Queue);
  ts : gmap string (option Task)
}.

Definition NewServer : Server := {| qs := ∅; ts := ∅ |}.

(** The completion callback that [CreateQueue] hands to the queue. *)
Definition onDone (s : Server) (task : Task) : Server :=
  {| qs := qs s; ts := <[Name (state task) := None]> (ts s) |}.

(** The two errors of [GetTask], as [status.Errorf] builds them. *)
Definition errTaskNotFound : Error :=
  Errorf NotFound "Task does not exist.".

Definition errTaskGone : Error :=
  Errorf FailedPrecondition
    "The task no longer exists,  though a task with this name existed recently. The task either successfully completed or was deleted.".

Definition GetTask (s : Server) (name : string) : Reply TaskState :=
  match ts s !! name with
  | None => Fail errTaskNotFound
  | Some None => Fail errTaskGone
  | Some (Some task) => Resp (state task)
  end.

(** [s.qs[name]] read without the presence flag: nil when absent. *)
Definition qs_index (s : Server) (name : string) : option Queue :=
  match qs s !! name with Some queue => queue | None => None end.

Definition GetQueue (s : Server) (name : string) : Reply (option QueueState) :=
  match qs_index s name with
  | None => Fault                      (* queue.state on nil *)
  | Some queue => Resp (q_state queue)
  end.

(** A call of a method of [Queue] returns, leaving the queue changed,
    or panics. *)
Inductive Outcome :=
  | Returned (queue : Queue)
  | Panicked.

Section QueueMethods.
(** [Purge], [Pause], [Resume] and [Delete] are methods of [Queue],
    defined with the queue; the handlers are modelled for any of them.
    On a nil receiver the method may fault or return; either way the
    handler dereferences the nil queue next. *)
Variables Purge Pause Resume Delete : Queue -> Outcome.

Definition call_then_state (method : Queue -> Outcome) (s : Server)
    (name : string) : Reply (option QueueState * Server) :=
  match qs_index s name with
  | None => Fault                    (* queue.state on nil *)
  | Some queue =>
    match method queue with
    | Panicked => Fault
    | Returned queue' =>
      Resp (q_state queue',
            {| qs := <[name := Some queue']> (qs s); ts := ts s |})
    end
  end.

Definition PurgeQueue := call_then_state Purge.
Definition PauseQueue := call_then_state Pause.
Definition ResumeQueue := call_then_state Resume.

(** The sibling handler that does check the lookup. *)
Definition DeleteQueue (s : Server) (name : string) : Reply Server :=
  match qs s !! name with
  | None | Some None =>
    Fail (Errorf NotFound "Requested entity was not found.")
  | Some (Some queue) =>
    match Delete queue with
    | Panicked => Fault
    | Returned _ => Resp {| qs := <[name := None]> (qs s); ts := ts s |}
    end
  end.
End QueueMethods.

End Registry.

(** ** The policy range and the backoff of the specification *)

(** The backoff as the specification words it:
    [min_backoff * 2^min(dispatch_count - 1, max_doublings)], capped at
    [max_backoff], over unbounded integers (nanoseconds). *)
Definition spec_backoff (min_backoff max_backoff max_doublings dispatch_count : Z) : Z :=
  Z.min (min_backoff * 2 ^ Z.min (dispatch_count - 1) max_doublings) max_backoff.

(** A policy whose two backoffs are the valid durations [dmin] and
    [dmax], with [dmin] not negative, and whose largest product
    [dmin * 2^max_doublings] is still an [int64] count of nanoseconds. *)
Definition policy_in_range (rc : RetryConfig) (dmin dmax : Duration) : Prop :=
  MinBackoff rc = Some dmin /\ MaxBackoff rc = Some dmax
  /\ duration_ok dmin /\ duration_ok dmax
  /\ 0 <= duration_nanos dmin
  /\ 0 <= MaxDoublings rc <= 62
  /\ duration_nanos dmin * 2 ^ MaxDoublings rc <= maxInt64.

(** Nanoseconds denoted by a schedule time that may be nil. *)
Definition schedule_nanos (t : option Timestamp) : Z :=
  GetSeconds t * ptypes.second + GetNanos t.

(** ** Sample inputs *)

(** The policy of the specification's scenario: 1s, 10s, 3 doublings,
    5 attempts. *)
Definition scenario_policy : RetryConfig :=
  {| MaxAttempts := 5; MinBackoff := Some (mkDuration 1 0);
     MaxBackoff := Some (mkDuration 10 0); MaxDoublings := 3 |}.

(** One second doubled up to 34 times, capped at one hour. *)
Definition wide_policy : RetryConfig :=
  {| MaxAttempts := 100; MinBackoff := Some (mkDuration 1 0);
     MaxBackoff := Some (mkDuration 3600 0); MaxDoublings := 34 |}.

(** A constant backoff of [d], with [attempts] attempts. *)
Definition flat_policy (attempts : Z) (d : Duration) : RetryConfig :=
  {| MaxAttempts := attempts; MinBackoff := Some d; MaxBackoff := Some d;
     MaxDoublings := 0 |}.

Definition sample_name : string := "projects/p/locations/l/queues/q/tasks/1".

(** A task as [setInitialTaskState] leaves it, with the given schedule
    time and counters. *)
Definition sample_state (schedule : Timestamp) (dispatched responded : Z) : TaskState :=
  {| Name := sample_name; ScheduleTime := Some schedule;
     CreateTime := Some (mkTimestamp 1000 0);
     DispatchDeadline := Some (mkDuration 600 0);
     DispatchCount := dispatched; ResponseCount := responded;
     FirstAttempt := None; LastAttempt := None |}.

Definition sample_clock (n : nat) : Timestamp :=
  {| ts_Seconds := 1000 + Z.of_nat n; ts_Nanos := 0 |}.

Definition sample_world (rc : option RetryConfig) (s : TaskState) : World :=
  {| w_task :=
       {| queue := {| q_name := "projects/p/locations/l/queues/q";
                      q_state := Some {| qs_Name := "projects/p/locations/l/queues/q";
                                         qs_RetryConfig := rc |} |};
          state := s |};
     w_now := sample_clock; w_reads := 0; w_trace := [] |}.

(** A mapper to run the model with; the properties hold for every one. *)
Definition sample_mapper : StatusMapper :=
  {| toRPCStatusCode := fun _ => 2; toCodeName := fun _ => "UNKNOWN" |}.

(** * The rest of the task and server code *)

(** ** Attempts in a row

    The queue calls [Attempt] each time a wait started by [Schedule]
    elapses; [attempts] runs one attempt per response code, in order. *)

Section AttemptsInARow.
Context {mapper : StatusMapper}.

Fixpoint attempts (respCodes : list Z) : M unit :=
  match respCodes with
  | [] => ret tt
  | respCode :: rest => Attempt respCode ;; attempts rest
  end.

End AttemptsInARow.

(** The trace of [w'] is the trace of [w] followed by [l]. *)
Definition extends (w w' : World) (l : list Event) : Prop :=
  w_trace w' = w_trace w ++ l.

(** The response is outside 200-299. *)
Definition failed (respCode : Z) : Prop := ~ (200 <= respCode <= 299).

(** ** Regular expressions, as far as the code uses them

    The three patterns of the code are sequences of literal texts and of
    character classes repeated one or more times, one of them captured.
    [find] is the search of the [regexp] package on such a pattern: the
    leftmost match, each repetition as long as the rest of the pattern
    allows. *)

Module regexp.

Inductive Item :=
  | Lit (text : string)                (* the text itself *)
  | Plus (class : Ascii.ascii -> bool)       (* [class]+ *)
  | Group (class : Ascii.ascii -> bool).     (* ([class]+) *)

Fixpoint strip_prefix (text s : string) : option string :=
  match text with
  | EmptyString => Some s
  | String a text' =>
    match s with
    | String b s' => if Ascii.eqb a b then strip_prefix text' s' else None
    | EmptyString => None
    end
  end.

(** Length of the longest prefix of [s] inside [class]. *)
Fixpoint span (class : Ascii.ascii -> bool) (s : string) : nat :=
  match s with
  | String c s' => if class c then S (span class s') else O
  | EmptyString => O
  end.

Fixpoint take_str (n : nat) (s : string) : string :=
  match n, s with
  | S n', String c s' => String c (take_str n' s')
  | _, _ => EmptyString
  end.

Fixpoint drop_str (n : nat) (s : string) : string :=
  match n, s with
  | S n', String _ s' => drop_str n' s'
  | _, _ => s
  end.

(** The first of [f n], [f (n - 1)], ..., [f 1] that succeeds. *)
Fixpoint longest_first {A} (n : nat) (f : nat -> option A) : option A :=
  match n with
  | O => None
  | S n' =>
    match f n with
    | Some r => Some r
    | None => longest_first n' f
    end
  end.

(** A match of [re] at the start of [s]: the captured texts and what is
    left of [s] after the match. *)
Fixpoint match_here (re : list Item) (s : string) : option (list string * string) :=
  match re with
  | [] => Some ([], s)
  | Lit text :: re' =>
    match strip_prefix text s with
    | Some s' => match_here re' s'
    | None => None
    end
  | Plus class :: re' =>
    longest_first (span class s) (fun n => match_here re' (drop_str n s))
  | Group class :: re' =>
    longest_first (span class s)
      (fun n =>
         match match_here re' (drop_str n s) with
         | Some (captures, rest) => Some (take_str n s :: captures, rest)
         | None => None
         end)
  end.

(** The leftmost match in [s]: the matched text, then the captures. *)
Fixpoint find (re : list Item) (s : string) : option (list string) :=
  match match_here re s with
  | Some (captures, rest) =>
    Some (take_str (String.length s - String.length rest) s :: captures)
  | None =>
    match s with
    | String _ s' => find re s'
    | EmptyString => None
    end
  end.

(** [regexp.MatchString]. *)
Definition MatchString (re : list Item) (s : string) : bool :=
  match find re s with Some _ => true | None => false end.

(** [FindStringSubmatch]: nil when nothing matches. *)
Definition FindStringSubmatch (re : list Item) (s : string) : list string :=
  match find re s with Some l => l | None => [] end.

(** The character classes of the three patterns, by character code:
    [0-9] is 48-57, [A-Z] is 65-90, [a-z] is 97-122, [-] is 45. *)
Definition in_range (lo hi : N) (c : Ascii.ascii) : bool :=
  (lo <=? Ascii.N_of_ascii c)%N && (Ascii.N_of_ascii c <=? hi)%N.

Definition digit (c : Ascii.ascii) : bool := in_range 48 57 c.

(** [[a-z0-9-]] *)
Definition lower_id (c : Ascii.ascii) : bool :=
  in_range 97 122 c || digit c || in_range 45 45 c.

(** [[A-Za-z0-9-]] *)
Definition any_id (c : Ascii.ascii) : bool :=
  in_range 65 90 c || lower_id c.

(** What a pattern denotes: the texts it matches as a whole. *)
Fixpoint all_in (class : Ascii.ascii -> bool) (s : string) : bool :=
  match s with
  | String c s' => class c && all_in class s'
  | EmptyString => true
  end.

Fixpoint Lang (re : list Item) (body : string) : Prop :=
  match re with
  | [] => body = EmptyString
  | Lit text :: re' => exists body', body = text +:+ body' /\ Lang re' body'
  | Plus class :: re' | Group class :: re' =>
    exists run body',
      body = run +:+ body' /\ run <> EmptyString /\ all_in class run = true
      /\ Lang re' body'
  end.

(** [s] has a part that the pattern matches. *)
Definition contains (re : list Item) (s : string) : Prop :=
  exists pre body post, s = pre +:+ body +:+ post /\ Lang re body.

End regexp.

(** The pattern of [CreateQueue] for the queue name:
    [projects/[A-Za-z0-9-]+/locations/[A-Za-z0-9-]+/queues/[A-Za-z0-9-]+]. *)
Definition queueNamePattern : list regexp.Item :=
  [regexp.Lit "projects/"; regexp.Plus regexp.any_id;
   regexp.Lit "/locations/"; regexp.Plus regexp.any_id;
   regexp.Lit "/queues/"; regexp.Plus regexp.any_id].

(** The pattern of [CreateQueue] for the parent:
    [projects/[A-Za-z0-9-]+/locations/[A-Za-z0-9-]+]. *)
Definition parentPattern : list regexp.Item :=
  [regexp.Lit "projects/"; regexp.Plus regexp.any_id;
   regexp.Lit "/locations/"; regexp.Plus regexp.any_id].

(** The pattern of [setInitialTaskState] for the task name:
    [projects/([a-z0-9-]+)/locations/[a-z0-9-]+/queues/[a-z0-9-]+/tasks/[0-9]+]. *)
Definition taskNamePattern : list regexp.Item :=
  [regexp.Lit "projects/"; regexp.Group regexp.lower_id;
   regexp.Lit "/locations/"; regexp.Plus regexp.lower_id;
   regexp.Lit "/queues/"; regexp.Plus regexp.lower_id;
   regexp.Lit "/tasks/"; regexp.Plus regexp.digit].

(** ** The other handlers of the server *)

Module Handlers.
Import Registry.

(** The double quote, character 34. *)
Definition dquote : string := String (Ascii.ascii_of_nat 34) EmptyString.

Definition errQueueName : Error :=
  Errorf InvalidArgument
    ("Queue name must be formatted: " +:+ dquote
     +:+ "projects/<PROJECT_ID>/locations/<LOCATION_ID>/queues/<QUEUE_ID>"
     +:+ dquote).

Definition errParent : Error :=
  Errorf InvalidArgument "Invalid resource field value in the request.".

Definition errQueueExists : Error :=
  Errorf AlreadyExists "Queue already exists".

Definition errQueueTooRecent : Error :=
  Errorf FailedPrecondition
    "The queue cannot be created because a queue with this name existed too recently.".

Definition errQueueNotFound : Error :=
  Errorf NotFound "Queue does not exist.".

Definition errQueueGone : Error :=
  Errorf FailedPrecondition
    "The queue no longer exists, though a queue with this name existed recently.".

(** The error of [DeleteTask] and [RunTask] for a nil entry. *)
Definition errTaskGoneNotFound : Error :=
  Errorf NotFound
    "The task no longer exists, though a task with this name existed recently. The task either successfully completed or was deleted.".

Definition errNotImplemented : Error :=
  Errorf Unimplemented "Not yet implemented".

(** Nil-safe [GetName] of the two messages. *)
Definition GetQueueName (q : option QueueState) : string :=
  match q with Some q => qs_Name q | None => EmptyString end.

Definition GetTaskName (t : option TaskState) : string :=
  match t with Some t => Name t | None => EmptyString end.

Section QueueCode.
(** What the handlers use of the queue's own code: the constructor
    [NewQueue] (the queue and its state message), the method [NewTask]
    (the queue with the task registered, the task, and its state
    message), the field [ts] and the four methods of before.  The
    handlers are modelled for any of them. *)
Variable NewQueue : string -> option QueueState -> Queue * option QueueState.
Variable Queue_NewTask : Queue -> option TaskState -> Queue * Task * option TaskState.
Variable Queue_ts : Queue -> gmap string (option Task).
Variables Purge Pause Resume Delete : Queue -> Outcome.

(** [ListQueues]: the states of the queues that are not nil, in the
    order the map yields them, which Go leaves open. *)
Definition ListQueues (s : Server) : list (option QueueState) :=
  omap (fun entry : string * option Queue =>
          match entry.2 with
          | Some queue => Some (q_state queue)
          | None => None
          end)
       (map_to_list (qs s)).

(** [CreateQueue]; [queue.Run()] only starts the goroutines of the new
    queue. *)
Definition CreateQueue (s : Server) (parent : string)
    (queueState : option QueueState) : Reply (option QueueState * Server) :=
  let name := GetQueueName queueState in
  if negb (regexp.MatchString queueNamePattern name) then Fail errQueueName
  else if negb (regexp.MatchString parentPattern parent) then Fail errParent
  else
    match qs s !! name with
    | Some (Some _) => Fail errQueueExists
    | Some None => Fail errQueueTooRecent
    | None =>
      let '(queue, queueState) := NewQueue name queueState in
      Resp (queueState, {| qs := <[name := Some queue]> (qs s); ts := ts s |})
    end.

Definition UpdateQueue (s : Server) : Reply (option QueueState) :=
  Fail errNotImplemented.

(** [ListTasks]: the queue is read without a check. *)
Definition ListTasks (s : Server) (parent : string) : Reply (list TaskState) :=
  match qs_index s parent with
  | None => Fault                      (* queue.ts on nil *)
  | Some queue =>
    Resp (omap (fun entry : string * option Task =>
                  match entry.2 with
                  | Some task => Some (state task)
                  | None => None
                  end)
               (map_to_list (Queue_ts queue)))
  end.

Definition CreateTask (s : Server) (parent : string)
    (spec : option TaskState) : Reply (option TaskState * Server) :=
  match qs s !! parent with
  | None => Fail errQueueNotFound
  | Some None => Fail errQueueGone
  | Some (Some queue) =>
    let '(queue, task, taskState) := Queue_NewTask queue spec in
    Resp (taskState,
          {| qs := <[parent := Some queue]> (qs s);
             ts := <[GetTaskName taskState := Some task]> (ts s) |})
  end.

(** [DeleteTask]: [task.Delete()] signals the cancellation to the wait
    of the task; the maps are not written. *)
Definition DeleteTask (s : Server) (name : string) : Reply Server :=
  match ts s !! name with
  | None => Fail errTaskNotFound
  | Some None => Fail errTaskGoneNotFound
  | Some (Some task) => Resp s
  end.

(** [RunTask]: [task.Run()] under the clock [now], [reads] readings in;
    the task under [name] is the one [Run] has updated. *)
Definition RunTask (s : Server) (now : nat -> Timestamp) (reads : nat)
    (name : string) : Reply (TaskState * Server) :=
  match ts s !! name with
  | None => Fail errTaskNotFound
  | Some None => Fail errTaskGoneNotFound
  | Some (Some task) =>
    match Run {| w_task := task; w_now := now; w_reads := reads; w_trace := [] |} with
    | Ok taskState w' =>
      Resp (deref w' taskState,
            {| qs := qs s; ts := <[name := Some (w_task w')]> (ts s) |})
    | Panic => Fault
    end
  end.

(** The requests that reach the maps, and the completion callback. *)
Inductive Request :=
  | ReqCreateQueue (parent : string) (queueState : option QueueState)
  | ReqDeleteQueue (name : string)
  | ReqPurgeQueue (name : string)
  | ReqPauseQueue (name : string)
  | ReqResumeQueue (name : string)
  | ReqCreateTask (parent : string) (spec : option TaskState)
  | ReqDeleteTask (name : string)
  | ReqRunTask (now : nat -> Timestamp) (reads : nat) (name : string)
  | ReqGetQueue (name : string)
  | ReqListQueues
  | ReqGetTask (name : string)
  | ReqListTasks (parent : string)
  | TaskDone (task : Task).

(** The server after a request: unchanged by an error, gone ([None])
    after a fault. *)
Definition after {A} (s : Server) (reply : Reply A) (next : A -> Server) : option Server :=
  match reply with
  | Resp a => Some (next a)
  | Fail _ => Some s
  | Fault => None
  end.

Definition serve (s : Server) (req : Request) : option Server :=
  match req with
  | ReqCreateQueue parent queueState => after s (CreateQueue s parent queueState) snd
  | ReqDeleteQueue name => after s (DeleteQueue Delete s name) id
  | ReqPurgeQueue name => after s (PurgeQueue Purge s name) snd
  | ReqPauseQueue name => after s (PauseQueue Pause s name) snd
  | ReqResumeQueue name => after s (ResumeQueue Resume s name) snd
  | ReqCreateTask parent spec => after s (CreateTask s parent spec) snd
  | ReqDeleteTask name => after s (DeleteTask s name) id
  | ReqRunTask now reads name => after s (RunTask s now reads name) snd
  | ReqGetQueue name => after s (GetQueue s name) (fun _ => s)
  | ReqListQueues => Some s
  | ReqGetTask name => after s (GetTask s name) (fun _ => s)
  | ReqListTasks parent => after s (ListTasks s parent) (fun _ => s)
  | TaskDone task => Some (onDone s task)
  end.

Fixpoint serve_all (s : Server) (reqs : list Request) : option Server :=
  match reqs with
  | [] => Some s
  | req :: rest =>
    match serve s req with
    | Some s' => serve_all s' rest
    | None => None
    end
  end.

End QueueCode.

End Handlers.

(** A well-formed queue name, and an identifier of a class. *)
Definition queue_name_of (project location queue : string) : string :=
  "projects/" +:+ project +:+ "/locations/" +:+ location +:+ "/queues/" +:+ queue.

Definition is_id (class : Ascii.ascii -> bool) (x : string) : Prop :=
  x <> EmptyString /\ regexp.all_in class x = true.

(** A queue code to run the handlers with: queues that keep what they
    are given, own no task, and whose methods return. *)
Definition sample_NewQueue (name : string) (queueState : option QueueState)
    : Queue * option QueueState :=
  ({| q_name := name; q_state := queueState |}, queueState).

Definition sample_Queue_NewTask (queue : Queue) (spec : option TaskState)
    : Queue * Task * option TaskState :=
  match spec with
  | Some taskState => (queue, {| queue := queue; state := taskState |}, Some taskState)
  | None =>
    (queue, {| queue := queue; state := sample_state (mkTimestamp 0 0) 0 0 |},
     Some (sample_state (mkTimestamp 0 0) 0 0))
  end.

Definition sample_method (queue : Queue) : Registry.Outcome :=
  Registry.Returned queue.

Definition sample_queue_state (name : string) : QueueState :=
  {| qs_Name := name; qs_RetryConfig := Some scenario_policy |}.

Definition sample_queue_name : string := "projects/p/locations/l/queues/q".

(** A server whose only queue was deleted, and one with a single task. *)
Definition sample_server_live : Registry.Server :=
  {| Registry.qs :=
       {[ sample_queue_name :=
            Some {| q_name := sample_queue_name;
                    q_state := Some (sample_queue_state sample_queue_name) |} ]};
     Registry.ts := ∅ |}.

Definition sample_server_deleted : Registry.Server :=
  {| Registry.qs := <[sample_queue_name := None]> (Registry.qs sample_server_live);
     Registry.ts := Registry.ts sample_server_live |}.



(** ** Task creation ([setInitialTaskState], [NewTask]) *)

Module Creation.

(** [tasks.HttpMethod] and [tasks.Task_View]. *)
Inductive HttpMethod :=
  | HTTP_METHOD_UNSPECIFIED | POST | GET | HEAD | PUT | DELETE | PATCH | OPTIONS.

Inductive View := VIEW_UNSPECIFIED | BASIC | FULL.

(** [tasks.HttpRequest]; a nil header map reads as the empty map, a nil
    body is [None]. *)
Record HttpRequest := mkHttpRequest {
  hr_Url : string;
  hr_HttpMethod : HttpMethod;
  hr_Headers : gmap string string;
  hr_Body : option string
}.

Record AppEngineRouting := mkAppEngineRouting {
  ar_Service : string;
  ar_Version : string;
  ar_Instance : string;
  ar_Host : string
}.

Record AppEngineHttpRequest := mkAppEngineHttpRequest {
  ae_HttpMethod : HttpMethod;
  ae_AppEngineRouting : option AppEngineRouting;
  ae_RelativeUri : string;
  ae_Headers : gmap string string;
  ae_Body : option string
}.

(** The payload of a task is one of the two requests, or unset. *)
Inductive PayloadType :=
  | Task_HttpRequest (r : HttpRequest)
  | Task_AppEngineHttpRequest (r : AppEngineHttpRequest).

(** The whole [tasks.Task] message: the fields of [TaskState], the view
    and the payload. *)
Record TaskMessage := mkTaskMessage {
  tm_state : TaskState;
  tm_View : View;
  tm_PayloadType : option PayloadType
}.

(** What [setInitialTaskState] reads from outside: the random number
    for the task id, the clock at its two readings, and the environment
    variable. *)
Record Ambient := mkAmbient {
  rand_Uint64 : N;
  now_first : Timestamp;
  now_second : Timestamp;
  APP_ENGINE_EMULATOR_HOST : string
}.

Definition is_empty (s : string) : bool :=
  match s with EmptyString => true | String _ _ => false end.

(** [strconv.FormatUint(n, 10)]. *)
Definition FormatUint (n : N) : string := pretty n.

Definition default_method (m : HttpMethod) : HttpMethod :=
  match m with HTTP_METHOD_UNSPECIFIED => POST | _ => m end.

(** [x + "." + host] when [x] is set. *)
Definition prefix_host (x host : string) : string :=
  if is_empty x then host else x +:+ "." +:+ host.

(** The App Engine half of [setInitialTaskState]; [None] is the panic of
    indexing the nil result of [FindStringSubmatch]. *)
Definition setInitialAppEngine (env : Ambient) (name : string)
    (r : AppEngineHttpRequest) : option AppEngineHttpRequest :=
  let method := default_method (ae_HttpMethod r) in
  let headers :=
    <["User-Agent" := "AppEngine-Google; (+http://code.google.com/appengine)"]>
      (ae_Headers r) in
  let headers :=
    match ae_Body r with
    | Some _ =>
      match headers !! "Content-Type" with
      | Some _ => headers
      | None => <["Content-Type" := "application/octet-stream"]> headers
      end
    | None => headers
    end in
  let routing :=
    match ae_AppEngineRouting r with
    | Some routing => routing
    | None => {| ar_Service := EmptyString; ar_Version := EmptyString;
                 ar_Instance := EmptyString; ar_Host := EmptyString |}
    end in
  match regexp.FindStringSubmatch taskNamePattern name !! 1%nat with
  | None => None
  | Some project =>
    let host := project +:+ ".appspot.com" in
    let emulatorHost := APP_ENGINE_EMULATOR_HOST env in
    let host := if is_empty emulatorHost then host else emulatorHost in
    let host := prefix_host (ar_Service routing) host in
    let host := prefix_host (ar_Version routing) host in
    let host := prefix_host (ar_Instance routing) host in
    let routing :=
      {| ar_Service := ar_Service routing; ar_Version := ar_Version routing;
         ar_Instance := ar_Instance routing; ar_Host := host |} in
    Some {| ae_HttpMethod := method;
            ae_AppEngineRouting := Some routing;
            ae_RelativeUri :=
              if is_empty (ae_RelativeUri r) then "/" else ae_RelativeUri r;
            ae_Headers := headers;
            ae_Body := ae_Body r |}
  end.

Definition setInitialHttp (r : HttpRequest) : HttpRequest :=
  {| hr_Url := hr_Url r;
     hr_HttpMethod := default_method (hr_HttpMethod r);
     hr_Headers := <["User-Agent" := "Google-Cloud-Tasks"]> (hr_Headers r);
     hr_Body := hr_Body r |}.

Definition setInitialTaskState (env : Ambient) (taskState : TaskMessage)
    (queueName : string) : option TaskMessage :=
  let s := tm_state taskState in
  let name :=
    if is_empty (Name s)
    then queueName +:+ "/tasks/" +:+ FormatUint (rand_Uint64 env)
    else Name s in
  let createTime :=
    {| ts_Seconds := ts_Seconds (now_first env); ts_Nanos := 0 |} in
  let scheduleTime :=
    match ScheduleTime s with
    | Some t => Some t
    | None => Some (now_second env)
    end in
  let dispatchDeadline :=
    match DispatchDeadline s with
    | Some d => Some d
    | None => Some {| d_Seconds := 600; d_Nanos := 0 |}
    end in
  let s :=
    {| Name := name; ScheduleTime := scheduleTime; CreateTime := Some createTime;
       DispatchDeadline := dispatchDeadline; DispatchCount := DispatchCount s;
       ResponseCount := ResponseCount s; FirstAttempt := FirstAttempt s;
       LastAttempt := LastAttempt s |} in
  match tm_PayloadType taskState with
  | None => Some {| tm_state := s; tm_View := BASIC; tm_PayloadType := None |}
  | Some (Task_HttpRequest r) =>
    Some {| tm_state := s; tm_View := BASIC;
            tm_PayloadType := Some (Task_HttpRequest (setInitialHttp r)) |}
  | Some (Task_AppEngineHttpRequest r) =>
    match setInitialAppEngine env name r with
    | Some r' =>
      Some {| tm_state := s; tm_View := BASIC;
              tm_PayloadType := Some (Task_AppEngineHttpRequest r') |}
    | None => None
    end
  end.

(** [NewTask]: the task keeps the queue and the normalised message; the
    [Task] record of the model holds its state fields. *)
Definition NewTask (env : Ambient) (queue : Queue) (taskState : TaskMessage)
    : option (Task * TaskMessage) :=
  match setInitialTaskState env taskState (q_name queue) with
  | Some taskState' =>
    Some ({| queue := queue; state := tm_state taskState' |},
          taskState')
  | None => None
  end.

End Creation.

(** The number of groups of a pattern. *)
Fixpoint groups (re : list regexp.Item) : nat :=
  match re with
  | [] => O
  | regexp.Group _ :: re' => S (groups re')
  | _ :: re' => groups re'
  end.

(** Nil-safe [GetAppEngineRouting]: the routing, or the empty one. *)
Definition routing_of (r : Creation.AppEngineHttpRequest) : Creation.AppEngineRouting :=
  match Creation.ae_AppEngineRouting r with
  | Some routing => routing
  | None =>
    {| Creation.ar_Service := EmptyString; Creation.ar_Version := EmptyString;
       Creation.ar_Instance := EmptyString; Creation.ar_Host := EmptyString |}
  end.

(** Surroundings and messages to run the creation with. *)
Definition sample_ambient : Creation.Ambient :=
  {| Creation.rand_Uint64 := 42; Creation.now_first := mkTimestamp 1000 500;
     Creation.now_second := mkTimestamp 1000 900;
     Creation.APP_ENGINE_EMULATOR_HOST := EmptyString |}.

Definition sample_app_engine_request : Creation.AppEngineHttpRequest :=
  {| Creation.ae_HttpMethod := Creation.HTTP_METHOD_UNSPECIFIED;
     Creation.ae_AppEngineRouting :=
       Some {| Creation.ar_Service := "worker"; Creation.ar_Version := "v2";
               Creation.ar_Instance := EmptyString; Creation.ar_Host := EmptyString |};
     Creation.ae_RelativeUri := EmptyString;
     Creation.ae_Headers := ∅;
     Creation.ae_Body := Some "payload" |}.

Definition sample_http_request : Creation.HttpRequest :=
  {| Creation.hr_Url := "http://localhost:8080/work";
     Creation.hr_HttpMethod := Creation.PUT;
     Creation.hr_Headers := {[ "User-Agent" := "curl"; "X-Trace" := "abc" ]};
     Creation.hr_Body := None |}.

Definition sample_message (name : string) (payload : option Creation.PayloadType)
    : Creation.TaskMessage :=
  {| Creation.tm_state :=
       {| Name := name; ScheduleTime := None; CreateTime := None;
          DispatchDeadline := None; DispatchCount := 7; ResponseCount := 3;
          FirstAttempt := None; LastAttempt := None |};
     Creation.tm_View := Creation.VIEW_UNSPECIFIED;
     Creation.tm_PayloadType := payload |}.

(** A well-formed task name. *)
Definition task_name_of (project location queue id : string) : string :=
  queue_name_of project location queue +:+ "/tasks/" +:+ id.

(** * Properties *)

(** ** Fixed-width arithmetic *)

Lemma int32_id x : in_int32 x -> int32 x = x.
Proof.
  unfold in_int32, minInt32, maxInt32, int32, wrap. intros H.
  rewrite Z.mod_small; lia.
Qed.

Lemma int64_id x : in_int64 x -> int64 x = x.
Proof.
  unfold in_int64, minInt64, maxInt64, int64, wrap. intros H.
  rewrite Z.mod_small; lia.
Qed.

Lemma int32_range x : in_int32 (int32 x).
Proof.
  unfold in_int32, minInt32, maxInt32, int32, wrap.
  pose proof (Z.mod_pos_bound (x + 2 ^ (32 - 1)) (2 ^ 32)). lia.
Qed.

Lemma int64_range x : in_int64 (int64 x).
Proof.
  unfold in_int64, minInt64, maxInt64, int64, wrap.
  pose proof (Z.mod_pos_bound (x + 2 ^ (64 - 1)) (2 ^ 64)). lia.
Qed.

(** Nested reductions collapse: [(a + b)++] wraps like [a + b + 1]. *)
Lemma int64_add_int64 x y : int64 (int64 x + y) = int64 (x + y).
Proof.
  unfold int64, wrap.
  replace ((x + 2 ^ (64 - 1)) mod 2 ^ 64 - 2 ^ (64 - 1) + y + 2 ^ (64 - 1))
    with ((x + 2 ^ (64 - 1)) mod 2 ^ 64 + y) by lia.
  rewrite Zplus_mod_idemp_l. f_equal. f_equal. lia.
Qed.

Lemma uint32_id x : 0 <= x < 2 ^ 32 -> uint32 x = x.
Proof. intros H. unfold uint32. apply Z.mod_small. lia. Qed.

Lemma shl64_pow2 s : 0 <= s <= 62 -> shl64 1 s = 2 ^ s.
Proof.
  intros H. unfold shl64.
  destruct (Z.leb_spec 64 s); [lia|].
  rewrite Z.shiftl_1_l. apply int64_id.
  unfold in_int64, minInt64, maxInt64.
  assert (2 ^ s <= 2 ^ 62) by (apply Z.pow_le_mono_r; lia).
  assert (0 < 2 ^ s) by (apply Z.pow_pos_nonneg; lia).
  lia.
Qed.

(** ** The duration conversions *)

Lemma validateDuration_true d :
  ptypes.validateDuration d = true ->
  ptypes.minSeconds <= d_Seconds d <= ptypes.maxSeconds
  /\ - ptypes.second < d_Nanos d < ptypes.second
  /\ (d_Seconds d < 0 -> d_Nanos d <= 0)
  /\ (0 < d_Seconds d -> 0 <= d_Nanos d).
Proof.
  unfold ptypes.validateDuration.
  destruct (Z.ltb_spec (d_Seconds d) ptypes.minSeconds); simpl; [discriminate|].
  destruct (Z.ltb_spec ptypes.maxSeconds (d_Seconds d)); simpl; [discriminate|].
  destruct (Z.leb_spec (d_Nanos d) (- ptypes.second)); simpl; [discriminate|].
  destruct (Z.leb_spec ptypes.second (d_Nanos d)); simpl; [discriminate|].
  destruct (Z.ltb_spec (d_Seconds d) 0), (Z.ltb_spec 0 (d_Nanos d)),
    (Z.ltb_spec 0 (d_Seconds d)), (Z.ltb_spec (d_Nanos d) 0);
    simpl; intros; try discriminate; lia.
Qed.

(** A valid duration in the [int64] nanosecond range converts exactly. *)
Lemma ptypes_Duration_exact d :
  duration_ok d -> ptypes.Duration (Some d) = duration_nanos d.
Proof.
  intros [Hv Hr]. pose proof (validateDuration_true d Hv) as (Hs & Hn & Hneg & Hpos).
  unfold ptypes.Duration. rewrite Hv. simpl negb. cbv iota.
  unfold duration_nanos, in_int64, minInt64, maxInt64, ptypes.second in *.
  assert (Hm : int64 (d_Seconds d * 1000000000) = d_Seconds d * 1000000000).
  { apply int64_id. unfold in_int64, minInt64, maxInt64. lia. }
  cbv zeta. rewrite Hm. rewrite Z.quot_mul by lia. rewrite Z.eqb_refl. simpl negb.
  destruct (Z.eqb_spec (d_Nanos d) 0) as [E|E]; [lia|].
  rewrite int64_id by (unfold in_int64, minInt64, maxInt64; lia).
  destruct (Z.ltb_spec (d_Seconds d * 1000000000 + d_Nanos d) 0),
    (Z.ltb_spec (d_Nanos d) 0); simpl; try reflexivity; lia.
Qed.


(** ** Backoff *)

(** The cap is applied last, whatever the product wrapped to. *)
Lemma reschedule_backoff_le_max rc dc :
  reschedule_backoff rc dc <= ptypes.Duration (MaxBackoff rc).
Proof.
  unfold reschedule_backoff. cbv zeta.
  match goal with |- context [if ?a <? ?b then _ else _] =>
    destruct (Z.ltb_spec a b) end; lia.
Qed.

Lemma reschedule_backoff_formula rc dmin dmax dc :
  policy_in_range rc dmin dmax -> 1 <= dc <= maxInt32 ->
  reschedule_backoff rc dc =
  spec_backoff (duration_nanos dmin) (duration_nanos dmax) (MaxDoublings rc) dc.
Proof.
  intros (Hmin & Hmax & Okmin & Okmax & Hnn & Hmd & Hfit) Hdc.
  unfold reschedule_backoff, spec_backoff. cbv zeta.
  rewrite Hmin, Hmax, !ptypes_Duration_exact by assumption.
  unfold maxInt32 in Hdc.
  rewrite (int32_id (dc - 1)) by (unfold in_int32, minInt32, maxInt32; lia).
  set (d := if MaxDoublings rc <? dc - 1 then MaxDoublings rc else dc - 1).
  assert (Hd : d = Z.min (dc - 1) (MaxDoublings rc)).
  { subst d. destruct (Z.ltb_spec (MaxDoublings rc) (dc - 1)); lia. }
  assert (Hd0 : 0 <= d <= MaxDoublings rc) by lia.
  rewrite <- Hd.
  rewrite uint32_id by lia.
  rewrite shl64_pow2 by lia.
  assert (Hpow : 0 < 2 ^ d <= 2 ^ MaxDoublings rc).
  { split; [apply Z.pow_pos_nonneg; lia | apply Z.pow_le_mono_r; lia]. }
  assert (Hprod : 0 <= duration_nanos dmin * 2 ^ d <= maxInt64).
  { split; [apply Z.mul_nonneg_nonneg; lia|].
    etransitivity; [|exact Hfit]. apply Z.mul_le_mono_nonneg_l; lia. }
  rewrite int64_id by (unfold in_int64, minInt64, maxInt64 in *; lia).
  match goal with |- context [if ?a <? ?b then _ else _] =>
    destruct (Z.ltb_spec a b) end; lia.
Qed.

Lemma spec_backoff_mono mn mx md dc dc' :
  0 <= mn -> 0 <= md -> 1 <= dc <= dc' ->
  spec_backoff mn mx md dc <= spec_backoff mn mx md dc'.
Proof.
  intros Hmn Hmd Hdc. unfold spec_backoff.
  apply Z.min_le_compat_r. apply Z.mul_le_mono_nonneg_l; [assumption|].
  apply Z.pow_le_mono_r; lia.
Qed.

(** C1 (amended).  For a policy in range and a task with
    [dispatch_count >= 1], the backoff computed by update-for-reschedule
    is [min_backoff * 2^min(dispatch_count - 1, max_doublings)] capped at
    [max_backoff]; it does not decrease as [dispatch_count] grows and it
    never exceeds [max_backoff]. *)
Theorem reschedule_backoff_in_range rc dmin dmax dc :
  policy_in_range rc dmin dmax -> 1 <= dc <= maxInt32 ->
  reschedule_backoff rc dc =
    spec_backoff (duration_nanos dmin) (duration_nanos dmax) (MaxDoublings rc) dc
  /\ (forall dc', dc <= dc' <= maxInt32 ->
        reschedule_backoff rc dc <= reschedule_backoff rc dc')
  /\ reschedule_backoff rc dc <= duration_nanos dmax.
Proof.
  intros Hp Hdc. split; [|split].
  - apply reschedule_backoff_formula; assumption.
  - intros dc' Hdc'.
    rewrite (reschedule_backoff_formula rc dmin dmax dc) by assumption.
    rewrite (reschedule_backoff_formula rc dmin dmax dc') by (assumption || lia).
    destruct Hp as (_ & _ & _ & _ & Hnn & Hmd & _).
    apply spec_backoff_mono; lia.
  - pose proof (reschedule_backoff_le_max rc dc) as H.
    destruct Hp as (_ & Hmax & _ & Okmax & _).
    rewrite Hmax, ptypes_Duration_exact in H; assumption.
Qed.

(** C1, at the scenario policy and the fifth dispatch. *)
Lemma reschedule_backoff_in_range_witness :
  reschedule_backoff scenario_policy 5 =
    spec_backoff (duration_nanos (mkDuration 1 0))
      (duration_nanos (mkDuration 10 0)) (MaxDoublings scenario_policy) 5
  /\ (forall dc', 5 <= dc' <= maxInt32 ->
        reschedule_backoff scenario_policy 5 <= reschedule_backoff scenario_policy dc')
  /\ reschedule_backoff scenario_policy 5 <= duration_nanos (mkDuration 10 0).
Proof.
  apply (reschedule_backoff_in_range scenario_policy (mkDuration 1 0) (mkDuration 10 0) 5).
  - unfold policy_in_range, duration_ok, in_int64.
    repeat split; vm_compute; congruence.
  - vm_compute. split; congruence.
Defined.

(** C1 as stated fails: doubling one second 34 times leaves the [int64]
    range, the product wraps to a negative duration, and the backoff
    drops from the cap (dispatch 34) to a negative value (dispatch 35). *)
Lemma reschedule_backoff_wraps :
  reschedule_backoff wide_policy 35 = -1266874889709551616
  /\ spec_backoff 1000000000 3600000000000 (MaxDoublings wide_policy) 35
     = 3600000000000
  /\ reschedule_backoff wide_policy 34 = 3600000000000
  /\ ~ (reschedule_backoff wide_policy 34 <= reschedule_backoff wide_policy 35).
Proof. vm_compute. repeat split; congruence. Qed.

(** ** The next schedule time *)

Lemma reschedule_time_exact prev pb :
  0 <= GetNanos prev < ptypes.second ->
  0 <= d_Nanos pb < ptypes.second ->
  in_int64 ((schedule_nanos prev + duration_nanos pb) / ptypes.second) ->
  timestamp_nanos (reschedule_time prev pb) = schedule_nanos prev + duration_nanos pb
  /\ 0 <= ts_Nanos (reschedule_time prev pb) < ptypes.second.
Proof.
  unfold reschedule_time, timestamp_nanos, schedule_nanos, duration_nanos,
    ptypes.second.
  intros Hn Hb Hr. cbv zeta.
  rewrite (int64_id (GetNanos prev + d_Nanos pb))
    by (unfold in_int64, minInt64, maxInt64; lia).
  destruct (Z.leb_spec 1000000000 (GetNanos prev + d_Nanos pb)) as [Hc|Hc]; simpl.
  - rewrite int64_add_int64.
    assert (Hq : (GetSeconds prev * 1000000000 + GetNanos prev
                  + (d_Seconds pb * 1000000000 + d_Nanos pb)) / 1000000000
                 = GetSeconds prev + d_Seconds pb + 1).
    { symmetry.
      apply Z.div_unique with (r := GetNanos prev + d_Nanos pb - 1000000000); lia. }
    rewrite Hq in Hr. rewrite (int64_id _ Hr).
    rewrite (int64_id (GetNanos prev + d_Nanos pb - 1000000000))
      by (unfold in_int64, minInt64, maxInt64; lia).
    rewrite int32_id by (unfold in_int32, minInt32, maxInt32; lia).
    lia.
  - assert (Hq : (GetSeconds prev * 1000000000 + GetNanos prev
                  + (d_Seconds pb * 1000000000 + d_Nanos pb)) / 1000000000
                 = GetSeconds prev + d_Seconds pb).
    { symmetry.
      apply Z.div_unique with (r := GetNanos prev + d_Nanos pb); lia. }
    rewrite Hq in Hr. rewrite (int64_id _ Hr).
    rewrite int32_id by (unfold in_int32, minInt32, maxInt32; lia).
    lia.
Qed.

(** What [updateStateForReschedule] does when the queue has a policy. *)
Lemma updateStateForReschedule_run w rc :
  GetRetryConfig (q_state (queue (w_task w))) = Some rc ->
  let s := state (w_task w) in
  let s' := set_ScheduleTime s
    (Some (reschedule_time (ScheduleTime s)
       (ptypes.DurationProto (reschedule_backoff rc (DispatchCount s))))) in
  updateStateForReschedule w =
  Ok (Cloned s')
     {| w_task := {| queue := queue (w_task w); state := s' |};
        w_now := w_now w; w_reads := w_reads w; w_trace := w_trace w |}.
Proof.
  intros Hrc. unfold updateStateForReschedule, bind, get_task.
  rewrite Hrc. reflexivity.
Qed.

(** C2 (amended).  When the sub-second parts of the previous schedule
    time and of the backoff are in [0, 1e9) and the whole seconds of their
    sum fit in 64 bits, update-for-reschedule sets the schedule time to
    exactly the previous schedule time plus the backoff, with the
    sub-second part again in [0, 1e9). *)
Theorem updateStateForReschedule_schedule_time w rc :
  GetRetryConfig (q_state (queue (w_task w))) = Some rc ->
  let prev := ScheduleTime (state (w_task w)) in
  let protoBackoff :=
    ptypes.DurationProto (reschedule_backoff rc (DispatchCount (state (w_task w)))) in
  0 <= GetNanos prev < ptypes.second ->
  0 <= d_Nanos protoBackoff < ptypes.second ->
  in_int64 ((schedule_nanos prev + duration_nanos protoBackoff) / ptypes.second) ->
  exists frozen w' t,
    updateStateForReschedule w = Ok (Cloned frozen) w'
    /\ state (w_task w') = frozen
    /\ ScheduleTime frozen = Some t
    /\ timestamp_nanos t = schedule_nanos prev + duration_nanos protoBackoff
    /\ 0 <= ts_Nanos t < ptypes.second.
Proof.
  intros Hrc prev protoBackoff Hn Hb Hr.
  pose proof (reschedule_time_exact prev protoBackoff Hn Hb Hr) as [Hsum Hnanos].
  eexists _, _, _. rewrite (updateStateForReschedule_run w rc Hrc).
  split; [reflexivity|]. split; [reflexivity|]. split; [reflexivity|].
  split; assumption.
Qed.

(** C2, at the specification's example: (5s, 900,000,000) plus a backoff
    of (0s, 200,000,000). *)
Lemma updateStateForReschedule_schedule_time_witness :
  let w := sample_world (Some (flat_policy 5 (mkDuration 0 200000000)))
             (sample_state (mkTimestamp 5 900000000) 1 1) in
  exists frozen w' t,
    updateStateForReschedule w = Ok (Cloned frozen) w'
    /\ state (w_task w') = frozen
    /\ ScheduleTime frozen = Some t
    /\ timestamp_nanos t = 5900000000 + 200000000
    /\ 0 <= ts_Nanos t < ptypes.second.
Proof.
  apply (updateStateForReschedule_schedule_time
           (sample_world (Some (flat_policy 5 (mkDuration 0 200000000)))
              (sample_state (mkTimestamp 5 900000000) 1 1))
           (flat_policy 5 (mkDuration 0 200000000))).
  - reflexivity.
  - vm_compute. split; congruence.
  - vm_compute. split; congruence.
  - vm_compute. split; congruence.
Defined.

Example reschedule_time_carry :
  reschedule_time (Some (mkTimestamp 5 900000000)) (mkDuration 0 200000000)
  = mkTimestamp 6 100000000.
Proof. reflexivity. Qed.

(** C2 as stated fails: at the largest [int64] second, adding a backoff
    of one second wraps the seconds to the smallest [int64]. *)
Lemma updateStateForReschedule_seconds_wrap :
  let prev := mkTimestamp 9223372036854775807 0 in
  let w := sample_world (Some (flat_policy 5 (mkDuration 1 0))) (sample_state prev 1 1) in
  0 <= ts_Nanos prev < ptypes.second
  /\ ptypes.DurationProto (reschedule_backoff (flat_policy 5 (mkDuration 1 0)) 1)
     = mkDuration 1 0
  /\ exists frozen w',
       updateStateForReschedule w = Ok (Cloned frozen) w'
       /\ ScheduleTime frozen = Some (mkTimestamp (-9223372036854775808) 0)
       /\ timestamp_nanos (mkTimestamp (-9223372036854775808) 0)
          <> timestamp_nanos prev + 1000000000.
Proof.
  split; [vm_compute; split; congruence|]. split; [reflexivity|].
  eexists _, _. split; [vm_compute; reflexivity|]. split; [reflexivity|].
  vm_compute. congruence.
Qed.

(** ** The reschedule decision *)

Lemma events_since_1 w tk now rd a :
  events_since w {| w_task := tk; w_now := now; w_reads := rd;
                    w_trace := w_trace w ++ [a] |} = [a].
Proof. unfold events_since. simpl. apply drop_app_length. Qed.

Lemma events_since_2 w tk now rd a b :
  events_since w {| w_task := tk; w_now := now; w_reads := rd;
                    w_trace := (w_trace w ++ [a]) ++ [b] |} = [a; b].
Proof.
  unfold events_since. simpl. rewrite <- app_assoc. apply drop_app_length.
Qed.

Lemma success_range_true statusCode :
  200 <= statusCode <= 299 ->
  (200 <=? statusCode) && (statusCode <=? 299) = true.
Proof. intros H. apply andb_true_iff. split; apply Z.leb_le; lia. Qed.

Lemma success_range_false statusCode :
  ~ (200 <= statusCode <= 299) ->
  (200 <=? statusCode) && (statusCode <=? 299) = false.
Proof.
  intros H. apply andb_false_iff.
  destruct (Z.leb_spec 200 statusCode); [|left; reflexivity].
  right. apply Z.leb_gt. lia.
Qed.

(** A success logs and calls back. *)
Lemma reschedule_done w retry statusCode :
  200 <= statusCode <= 299 ->
  reschedule retry statusCode w =
  Ok tt {| w_task := w_task w; w_now := w_now w; w_reads := w_reads w;
           w_trace := (w_trace w ++ [Log "Task done"]) ++ [OnDone] |}.
Proof.
  intros H. unfold reschedule. rewrite (success_range_true _ H). reflexivity.
Qed.

(** A failure without retry only logs. *)
Lemma reschedule_no_retry w statusCode :
  ~ (200 <= statusCode <= 299) ->
  reschedule false statusCode w =
  Ok tt {| w_task := w_task w; w_now := w_now w; w_reads := w_reads w;
           w_trace := w_trace w
                      ++ [Log ("Task exec error with status " +:+ Itoa statusCode)] |}.
Proof.
  intros H. unfold reschedule. rewrite (success_range_false _ H). reflexivity.
Qed.

(** A failure with retry, once the attempts are used up, only logs. *)
Lemma reschedule_exhausted w statusCode :
  ~ (200 <= statusCode <= 299) ->
  GetMaxAttempts (GetRetryConfig (q_state (queue (w_task w))))
    <= DispatchCount (state (w_task w)) ->
  reschedule true statusCode w =
  Ok tt {| w_task := w_task w; w_now := w_now w; w_reads := w_reads w;
           w_trace := (w_trace w
                       ++ [Log ("Task exec error with status " +:+ Itoa statusCode)])
                      ++ [Log "Ran out of attempts"] |}.
Proof.
  intros H Hmax. unfold reschedule. rewrite (success_range_false _ H).
  unfold bind, emit, get_task. simpl.
  apply Z.leb_le in Hmax. rewrite Hmax. reflexivity.
Qed.

(** A failure with retry and attempts left moves the schedule time and
    starts a new wait. *)
Lemma reschedule_again w rc statusCode :
  ~ (200 <= statusCode <= 299) ->
  GetRetryConfig (q_state (queue (w_task w))) = Some rc ->
  DispatchCount (state (w_task w)) < MaxAttempts rc ->
  let s := state (w_task w) in
  let t := reschedule_time (ScheduleTime s)
             (ptypes.DurationProto (reschedule_backoff rc (DispatchCount s))) in
  reschedule true statusCode w =
  Ok tt {| w_task := {| queue := queue (w_task w);
                        state := set_ScheduleTime s (Some t) |};
           w_now := w_now w; w_reads := S (w_reads w);
           w_trace := (w_trace w
                       ++ [Log ("Task exec error with status " +:+ Itoa statusCode)])
                      ++ [Armed (Some t) (w_now w (w_reads w))] |}.
Proof.
  intros H Hrc Hlt. unfold reschedule. rewrite (success_range_false _ H).
  unfold bind at 1. unfold emit at 1. unfold bind at 1. unfold get_task at 1.
  cbn [w_task w_now w_reads w_trace].
  rewrite Hrc. cbn [GetMaxAttempts].
  apply Z.leb_gt in Hlt. rewrite Hlt.
  unfold bind at 1. unfold updateStateForReschedule, bind, get_task.
  cbn [w_task w_now w_reads w_trace]. rewrite Hrc. reflexivity.
Qed.

(** C5.  A status in 200-299 invokes the completion callback exactly once
    and schedules nothing further, with retry enabled or disabled: the
    task state is untouched and no wait is started. *)
Theorem reschedule_success retry statusCode w :
  200 <= statusCode <= 299 ->
  exists w',
    reschedule retry statusCode w = Ok tt w'
    /\ events_since w w' = [Log "Task done"; OnDone]
    /\ count_events is_OnDone (events_since w w') = 1%nat
    /\ count_events is_Armed (events_since w w') = 0%nat
    /\ w_task w' = w_task w
    /\ w_reads w' = w_reads w.
Proof.
  intros H. eexists. rewrite (reschedule_done w retry statusCode H).
  split; [reflexivity|].
  rewrite events_since_2. repeat split.
Qed.

(** C5, at status 200 with retry enabled. *)
Lemma reschedule_success_witness :
  let w := sample_world (Some scenario_policy) (sample_state (mkTimestamp 5 0) 1 1) in
  200 <= 200 <= 299
  /\ exists w',
       reschedule true 200 w = Ok tt w'
       /\ events_since w w' = [Log "Task done"; OnDone]
       /\ count_events is_OnDone (events_since w w') = 1%nat
       /\ count_events is_Armed (events_since w w') = 0%nat
       /\ w_task w' = w_task w
       /\ w_reads w' = w_reads w.
Proof.
  split; [lia|].
  apply (reschedule_success true 200
           (sample_world (Some scenario_policy) (sample_state (mkTimestamp 5 0) 1 1))).
  lia.
Defined.

(** C3 (amended).  With max attempts 0 (or no policy at all) a
    retry-enabled attempt that ends with a non-2xx status, at any
    dispatch count from 0 on, takes the retries-exhausted branch: the
    state is left as it is and no wait is started. *)
Theorem reschedule_max_attempts_zero w statusCode :
  GetMaxAttempts (GetRetryConfig (q_state (queue (w_task w)))) = 0 ->
  0 <= DispatchCount (state (w_task w)) ->
  ~ (200 <= statusCode <= 299) ->
  exists w',
    reschedule true statusCode w = Ok tt w'
    /\ events_since w w' =
       [Log ("Task exec error with status " +:+ Itoa statusCode);
        Log "Ran out of attempts"]
    /\ count_events is_Armed (events_since w w') = 0%nat
    /\ w_task w' = w_task w
    /\ w_reads w' = w_reads w.
Proof.
  intros Hmax Hdc H. eexists.
  rewrite reschedule_exhausted by (assumption || lia).
  split; [reflexivity|]. rewrite events_since_2. repeat split.
Qed.

(** C3 (amended), at status 500 on the first dispatch. *)
Lemma reschedule_max_attempts_zero_witness :
  let w := sample_world (Some (flat_policy 0 (mkDuration 1 0)))
             (sample_state (mkTimestamp 5 0) 1 1) in
  exists w',
    reschedule true 500 w = Ok tt w'
    /\ events_since w w' =
       [Log ("Task exec error with status " +:+ Itoa 500);
        Log "Ran out of attempts"]
    /\ count_events is_Armed (events_since w w') = 0%nat
    /\ w_task w' = w_task w
    /\ w_reads w' = w_reads w.
Proof.
  apply (reschedule_max_attempts_zero
           (sample_world (Some (flat_policy 0 (mkDuration 1 0)))
              (sample_state (mkTimestamp 5 0) 1 1)) 500).
  - reflexivity.
  - vm_compute. congruence.
  - lia.
Defined.

(** C3 as stated fails: with max attempts 0 the first failed attempt is
    already out of attempts; the schedule time stays and no wait starts. *)
Lemma reschedule_zero_is_not_unbounded :
  let w := sample_world (Some (flat_policy 0 (mkDuration 1 0)))
             (sample_state (mkTimestamp 5 0) 1 1) in
  MaxAttempts (flat_policy 0 (mkDuration 1 0)) = 0
  /\ reschedule true 500 w =
     Ok tt {| w_task := w_task w; w_now := w_now w; w_reads := w_reads w;
              w_trace := [Log "Task exec error with status 500";
                          Log "Ran out of attempts"] |}.
Proof. split; reflexivity. Qed.

(** ** Dispatch bookkeeping *)

(** The attempt record that [updateStateForDispatch] writes. *)
Lemma updateStateForDispatch_run w :
  let s := state (w_task w) in
  let now := w_now w (w_reads w) in
  exists s',
    updateStateForDispatch w =
      Ok (Cloned s')
         {| w_task := {| queue := queue (w_task w); state := s' |};
            w_now := w_now w; w_reads := S (w_reads w); w_trace := w_trace w |}
    /\ Name s' = Name s
    /\ ScheduleTime s' = ScheduleTime s
    /\ DispatchCount s' = int32 (DispatchCount s + 1)
    /\ ResponseCount s' = ResponseCount s
    /\ LastAttempt s' =
       Some {| at_ScheduleTime :=
                 Some {| ts_Seconds := GetSeconds (ScheduleTime s);
                         ts_Nanos := GetNanos (ScheduleTime s) |};
               at_DispatchTime := Some now;
               at_ResponseTime := None;
               at_ResponseStatus := None |}
    /\ FirstAttempt s' =
       match FirstAttempt s with
       | Some first => Some first
       | None => Some {| at_ScheduleTime := None; at_DispatchTime := Some now;
                         at_ResponseTime := None; at_ResponseStatus := None |}
       end.
Proof.
  intros s now. unfold updateStateForDispatch, bind, get_task, TimestampNow.
  cbn [w_task w_now w_reads w_trace set_LastAttempt set_DispatchCount FirstAttempt].
  fold s. destruct (FirstAttempt s) as [first|] eqn:E.
  - eexists. split; [reflexivity|]. cbn. rewrite E. repeat split.
  - eexists. split; [reflexivity|]. cbn. repeat split.
Qed.

Section DispatchFacts.
Context {mapper : StatusMapper}.

(** [updateStateAfterDispatch] completes the last attempt record. *)
Lemma updateStateAfterDispatch_run w last statusCode :
  LastAttempt (state (w_task w)) = Some last ->
  let s := state (w_task w) in
  exists s' status,
    updateStateAfterDispatch statusCode w =
      Ok (Cloned s')
         {| w_task := {| queue := queue (w_task w); state := s' |};
            w_now := w_now w; w_reads := S (w_reads w); w_trace := w_trace w |}
    /\ Name s' = Name s
    /\ ScheduleTime s' = ScheduleTime s
    /\ DispatchCount s' = DispatchCount s
    /\ ResponseCount s' = int32 (ResponseCount s + 1)
    /\ FirstAttempt s' = FirstAttempt s
    /\ LastAttempt s' =
       Some {| at_ScheduleTime := at_ScheduleTime last;
               at_DispatchTime := at_DispatchTime last;
               at_ResponseTime := Some (w_now w (w_reads w));
               at_ResponseStatus := Some status |}
    /\ st_Code status = toRPCStatusCode statusCode.
Proof.
  intros Hlast s. unfold updateStateAfterDispatch, bind, get_task.
  cbn [w_task]. rewrite Hlast. unfold TimestampNow.
  eexists _, _. split; [reflexivity|]. cbn. repeat split.
Qed.

(** Without a last attempt record there is nothing to complete. *)
Lemma updateStateAfterDispatch_nil w statusCode :
  LastAttempt (state (w_task w)) = None ->
  updateStateAfterDispatch statusCode w = Panic.
Proof.
  intros Hlast. unfold updateStateAfterDispatch, bind, get_task.
  cbn [w_task]. rewrite Hlast. reflexivity.
Qed.

(** [reschedule] always returns when the dispatch count is not negative,
    and touches neither counter nor attempt record. *)
Lemma reschedule_keeps_counters w retry statusCode :
  0 <= DispatchCount (state (w_task w)) ->
  exists w',
    reschedule retry statusCode w = Ok tt w'
    /\ DispatchCount (state (w_task w')) = DispatchCount (state (w_task w))
    /\ ResponseCount (state (w_task w')) = ResponseCount (state (w_task w))
    /\ FirstAttempt (state (w_task w')) = FirstAttempt (state (w_task w))
    /\ LastAttempt (state (w_task w')) = LastAttempt (state (w_task w)).
Proof.
  intros Hdc.
  destruct (decide (200 <= statusCode <= 299)) as [Hok|Hko].
  { eexists. rewrite (reschedule_done w retry statusCode Hok).
    split; [reflexivity|]. repeat split. }
  destruct retry.
  - destruct (GetRetryConfig (q_state (queue (w_task w)))) as [rc|] eqn:Hrc.
    + destruct (Z_lt_le_dec (DispatchCount (state (w_task w))) (MaxAttempts rc))
        as [Hlt|Hge].
      * eexists. rewrite (reschedule_again w rc statusCode Hko Hrc Hlt).
        split; [reflexivity|]. repeat split.
      * eexists. rewrite (reschedule_exhausted w statusCode Hko)
          by (rewrite Hrc; exact Hge).
        split; [reflexivity|]. repeat split.
    + eexists. rewrite (reschedule_exhausted w statusCode Hko)
        by (rewrite Hrc; exact Hdc).
      split; [reflexivity|]. repeat split.
  - eexists. rewrite (reschedule_no_retry w statusCode Hko).
    split; [reflexivity|]. repeat split.
Qed.

(** [doDispatch] after a dispatch record was written: one more response,
    the same dispatch count. *)
Lemma doDispatch_counters w last respCode retry :
  LastAttempt (state (w_task w)) = Some last ->
  0 <= DispatchCount (state (w_task w)) ->
  exists w',
    doDispatch respCode retry w = Ok tt w'
    /\ DispatchCount (state (w_task w')) = DispatchCount (state (w_task w))
    /\ ResponseCount (state (w_task w'))
       = int32 (ResponseCount (state (w_task w)) + 1)
    /\ FirstAttempt (state (w_task w')) = FirstAttempt (state (w_task w)).
Proof.
  intros Hlast Hdc.
  destruct (updateStateAfterDispatch_run w last respCode Hlast)
    as (s' & status & Hrun & _ & _ & Hd & Hr & Hf & _).
  unfold doDispatch, bind. rewrite Hrun.
  match goal with |- context [reschedule retry respCode ?w1] =>
    destruct (reschedule_keeps_counters w1 retry respCode) as (w2 & Hres & Hd2 & Hr2 & Hf2 & _)
  end.
  { cbn [w_task state]. rewrite Hd. exact Hdc. }
  exists w2. rewrite Hres. cbn [w_task state] in Hd2, Hr2, Hf2.
  split; [reflexivity|]. rewrite Hd2, Hr2, Hf2. repeat split; assumption.
Qed.

End DispatchFacts.

Section TaskProperties.
Context {mapper : StatusMapper}.

(** [doDispatch] without retry: the response is recorded, the schedule
    time stays, and no wait is started; a failure calls nothing back. *)
Lemma doDispatch_no_retry w last respCode :
  LastAttempt (state (w_task w)) = Some last ->
  exists w' status,
    doDispatch respCode false w = Ok tt w'
    /\ ScheduleTime (state (w_task w')) = ScheduleTime (state (w_task w))
    /\ LastAttempt (state (w_task w')) =
       Some {| at_ScheduleTime := at_ScheduleTime last;
               at_DispatchTime := at_DispatchTime last;
               at_ResponseTime := Some (w_now w (w_reads w));
               at_ResponseStatus := Some status |}
    /\ count_events is_Armed (events_since w w') = 0%nat
    /\ (~ 200 <= respCode <= 299 ->
        events_since w w' = [Log ("Task exec error with status " +:+ Itoa respCode)]).
Proof.
  intros Hlast.
  destruct (updateStateAfterDispatch_run w last respCode Hlast)
    as (s' & status & Hrun & _ & Hs & _ & _ & _ & Hl & _).
  unfold doDispatch, bind. rewrite Hrun.
  destruct (decide (200 <= respCode <= 299)) as [Hok|Hko].
  - eexists _, status. rewrite reschedule_done by exact Hok.
    cbn [w_task w_now w_reads w_trace state].
    split; [reflexivity|]. split; [exact Hs|]. split; [exact Hl|].
    split; [|intros H; contradiction].
    rewrite events_since_2. reflexivity.
  - eexists _, status. rewrite reschedule_no_retry by exact Hko.
    cbn [w_task w_now w_reads w_trace state].
    split; [reflexivity|]. split; [exact Hs|]. split; [exact Hl|].
    rewrite events_since_1. split; [reflexivity|]. intros _. reflexivity.
Qed.

(** C6 (amended).  While the counters are below the largest [int32]:
    every [Attempt] and every [Run] raises [dispatch_count] by exactly 1
    through update-for-dispatch, no state update lowers it, and every
    completed attempt raises [response_count] by exactly 1 through
    update-after-dispatch. *)
Theorem counters_advance_by_one w respCode :
  let s := state (w_task w) in
  0 <= DispatchCount s < maxInt32 ->
  0 <= ResponseCount s < maxInt32 ->
  (exists w',
     Attempt respCode w = Ok tt w'
     /\ DispatchCount (state (w_task w')) = DispatchCount s + 1
     /\ ResponseCount (state (w_task w')) = ResponseCount s + 1)
  /\ (exists frozen w',
        Run w = Ok (Cloned frozen) w'
        /\ DispatchCount frozen = DispatchCount s + 1
        /\ DispatchCount (state (w_task w')) = DispatchCount s + 1
        /\ ResponseCount (state (w_task w')) = ResponseCount s
        /\ exists w'',
             doDispatch respCode false w' = Ok tt w''
             /\ DispatchCount (state (w_task w'')) = DispatchCount s + 1
             /\ ResponseCount (state (w_task w'')) = ResponseCount s + 1)
  /\ (forall p w', updateStateForDispatch w = Ok p w' ->
        DispatchCount (state (w_task w')) = DispatchCount s + 1)
  /\ (forall p w', updateStateAfterDispatch respCode w = Ok p w' ->
        DispatchCount s <= DispatchCount (state (w_task w'))
        /\ ResponseCount (state (w_task w')) = ResponseCount s + 1)
  /\ (forall p w', updateStateForReschedule w = Ok p w' ->
        DispatchCount s <= DispatchCount (state (w_task w'))).
Proof.
  intros s Hdc Hrc. unfold maxInt32 in *.
  assert (Hd1 : int32 (DispatchCount s + 1) = DispatchCount s + 1)
    by (apply int32_id; unfold in_int32, minInt32, maxInt32; lia).
  assert (Hr1 : int32 (ResponseCount s + 1) = ResponseCount s + 1)
    by (apply int32_id; unfold in_int32, minInt32, maxInt32; lia).
  destruct (updateStateForDispatch_run w)
    as (s1 & Hrun & _ & _ & Hd & Hr & Hl & _).
  fold s in Hd, Hr. rewrite Hd1 in Hd.
  split; [|split; [|split; [|split]]].
  - unfold Attempt, bind. rewrite Hrun.
    match goal with |- context [doDispatch respCode true ?w1] =>
      destruct (doDispatch_counters w1 _ respCode true Hl)
        as (w2 & Hdo & Hd2 & Hr2 & _) end.
    { cbn [w_task state]. lia. }
    cbn [w_task state] in Hd2, Hr2.
    exists w2. split; [exact Hdo|]. rewrite Hd2, Hr2, Hd, Hr, Hr1. split; reflexivity.
  - unfold Run, bind. rewrite Hrun. unfold emit, ret.
    cbn [w_task w_now w_reads w_trace].
    eexists _, _. split; [reflexivity|]. cbn [w_task state].
    split; [exact Hd|]. split; [exact Hd|]. split; [exact Hr|].
    match goal with |- context [doDispatch respCode false ?w1] =>
      destruct (doDispatch_counters w1 _ respCode false Hl)
        as (w2 & Hdo & Hd2 & Hr2 & _) end.
    { cbn [w_task state]. lia. }
    cbn [w_task state] in Hd2, Hr2.
    exists w2. split; [exact Hdo|]. rewrite Hd2, Hr2, Hd, Hr, Hr1. split; reflexivity.
  - intros p w' H. rewrite Hrun in H. injection H as _ <-. exact Hd.
  - intros p w' H.
    destruct (LastAttempt (state (w_task w))) as [last|] eqn:Hlast.
    + destruct (updateStateAfterDispatch_run w last respCode Hlast)
        as (s2 & status & Hrun2 & _ & _ & Hd2 & Hr2 & _).
      rewrite Hrun2 in H. injection H as _ <-. cbn [w_task state].
      fold s in Hd2, Hr2. rewrite Hd2, Hr2, Hr1. split; [lia|reflexivity].
    + rewrite (updateStateAfterDispatch_nil w respCode Hlast) in H. discriminate.
  - intros p w' H.
    destruct (GetRetryConfig (q_state (queue (w_task w)))) as [rc|] eqn:Hcfg.
    + rewrite (updateStateForReschedule_run w rc Hcfg) in H.
      injection H as _ <-. cbn [w_task state set_ScheduleTime DispatchCount].
      fold s. lia.
    + unfold updateStateForReschedule, bind, get_task in H.
      rewrite Hcfg in H. discriminate.
Qed.

(** C7.  [Run] returns at once a frozen copy of the state written by
    update-for-dispatch: the dispatch count incremented (1 on a first
    run), the last attempt carrying its dispatch time and no response
    yet.  The dispatch runs in a goroutine with retry disabled; when it
    completes, the live state has the response and the copy has not, and
    a non-2xx result starts no wait and leaves the schedule time. *)
Theorem Run_snapshot w :
  let s := state (w_task w) in
  exists frozen w' attempt,
    Run w = Ok (Cloned frozen) w'
    /\ state (w_task w') = frozen
    /\ DispatchCount frozen = int32 (DispatchCount s + 1)
    /\ (DispatchCount s = 0 -> DispatchCount frozen = 1)
    /\ LastAttempt frozen = Some attempt
    /\ at_DispatchTime attempt = Some (w_now w (w_reads w))
    /\ at_ResponseTime attempt = None
    /\ at_ResponseStatus attempt = None
    /\ events_since w w' = [GoDoDispatch false]
    /\ forall respCode,
         exists w'' attempt',
           doDispatch respCode false w' = Ok tt w''
           /\ LastAttempt (state (w_task w'')) = Some attempt'
           /\ is_Some (at_ResponseTime attempt')
           /\ is_Some (at_ResponseStatus attempt')
           /\ deref w'' (Cloned frozen) = frozen
           /\ deref w'' Live <> frozen
           /\ count_events is_Armed (events_since w' w'') = 0%nat
           /\ ScheduleTime (state (w_task w'')) = ScheduleTime frozen
           /\ (~ 200 <= respCode <= 299 ->
               events_since w' w'' =
               [Log ("Task exec error with status " +:+ Itoa respCode)]).
Proof.
  intros s.
  destruct (updateStateForDispatch_run w)
    as (s1 & Hrun & _ & _ & Hd & _ & Hl & _).
  fold s in Hd.
  unfold Run, bind. rewrite Hrun. unfold emit, ret.
  cbn [w_task w_now w_reads w_trace].
  eexists _, _, _. split; [reflexivity|]. cbn [w_task state].
  split; [reflexivity|]. split; [exact Hd|].
  split; [intros H0; rewrite Hd, H0; reflexivity|].
  split; [exact Hl|]. cbn [at_DispatchTime at_ResponseTime at_ResponseStatus].
  split; [reflexivity|]. split; [reflexivity|]. split; [reflexivity|].
  split; [apply events_since_1|].
  intros respCode.
  match goal with |- context [doDispatch respCode false ?w1] =>
    destruct (doDispatch_no_retry w1 _ respCode Hl)
      as (w2 & status & Hdo & Hs2 & Hl2 & Harm & Hfail) end.
  cbn [w_task state at_ScheduleTime at_DispatchTime w_now w_reads] in Hs2, Hl2.
  eexists w2, _. split; [exact Hdo|]. split; [exact Hl2|].
  cbn [at_ResponseTime at_ResponseStatus].
  split; [eexists; reflexivity|]. split; [eexists; reflexivity|].
  split; [reflexivity|].
  split.
  { cbn [deref]. intros Heq. rewrite Heq, Hl in Hl2. discriminate. }
  split; [exact Harm|]. split; [exact Hs2|]. exact Hfail.
Qed.

(** C10 (amended).  Update-for-dispatch always replaces [last_attempt]
    by the record of the attempt being dispatched (the task's schedule
    time copied, the dispatch time now).  On the first dispatch
    [first_attempt] gets the dispatch time of that record and nothing
    else; once present, [first_attempt] is kept by every state update. *)
Theorem first_attempt_fixed w :
  let s := state (w_task w) in
  let now := w_now w (w_reads w) in
  (exists frozen w',
     updateStateForDispatch w = Ok (Cloned frozen) w'
     /\ state (w_task w') = frozen
     /\ LastAttempt frozen =
        Some {| at_ScheduleTime :=
                  Some {| ts_Seconds := GetSeconds (ScheduleTime s);
                          ts_Nanos := GetNanos (ScheduleTime s) |};
                at_DispatchTime := Some now;
                at_ResponseTime := None;
                at_ResponseStatus := None |}
     /\ (FirstAttempt s = None ->
         FirstAttempt frozen =
         Some {| at_ScheduleTime := None; at_DispatchTime := Some now;
                 at_ResponseTime := None; at_ResponseStatus := None |})
     /\ (forall first, FirstAttempt s = Some first ->
         FirstAttempt frozen = Some first))
  /\ (forall first statusCode p w',
        FirstAttempt s = Some first ->
        updateStateAfterDispatch statusCode w = Ok p w' ->
        FirstAttempt (state (w_task w')) = Some first)
  /\ (forall first p w',
        FirstAttempt s = Some first ->
        updateStateForReschedule w = Ok p w' ->
        FirstAttempt (state (w_task w')) = Some first)
  /\ (forall last statusCode p w',
        LastAttempt s = Some last ->
        updateStateAfterDispatch statusCode w = Ok p w' ->
        exists status,
          LastAttempt (state (w_task w')) =
          Some {| at_ScheduleTime := at_ScheduleTime last;
                  at_DispatchTime := at_DispatchTime last;
                  at_ResponseTime := Some now;
                  at_ResponseStatus := Some status |})
  /\ (forall p w',
        updateStateForReschedule w = Ok p w' ->
        LastAttempt (state (w_task w')) = LastAttempt s).
Proof.
  intros s now. split; [|split; [|split; [|split]]].
  - destruct (updateStateForDispatch_run w)
      as (s1 & Hrun & _ & _ & _ & _ & Hl & Hf).
    fold s in Hf. eexists _, _. split; [exact Hrun|]. cbn [w_task state].
    split; [reflexivity|]. split; [exact Hl|]. split.
    + intros Hnone. rewrite Hf, Hnone. reflexivity.
    + intros first Hsome. rewrite Hf, Hsome. reflexivity.
  - intros first statusCode p w' Hfirst H.
    destruct (LastAttempt (state (w_task w))) as [last|] eqn:Hlast.
    + destruct (updateStateAfterDispatch_run w last statusCode Hlast)
        as (s2 & status & Hrun2 & _ & _ & _ & _ & Hf2 & _).
      rewrite Hrun2 in H. injection H as _ <-. cbn [w_task state].
      rewrite Hf2. exact Hfirst.
    + rewrite (updateStateAfterDispatch_nil w statusCode Hlast) in H. discriminate.
  - intros first p w' Hfirst H.
    destruct (GetRetryConfig (q_state (queue (w_task w)))) as [rc|] eqn:Hcfg.
    + rewrite (updateStateForReschedule_run w rc Hcfg) in H.
      injection H as _ <-. exact Hfirst.
    + unfold updateStateForReschedule, bind, get_task in H.
      rewrite Hcfg in H. discriminate.
  - intros last statusCode p w' Hlast H.
    destruct (updateStateAfterDispatch_run w last statusCode Hlast)
      as (s2 & status & Hrun2 & _ & _ & _ & _ & _ & Hl2 & _).
    rewrite Hrun2 in H. injection H as _ <-. cbn [w_task state].
    exists status. exact Hl2.
  - intros p w' H.
    destruct (GetRetryConfig (q_state (queue (w_task w)))) as [rc|] eqn:Hcfg.
    + rewrite (updateStateForReschedule_run w rc Hcfg) in H.
      injection H as _ <-. reflexivity.
    + unfold updateStateForReschedule, bind, get_task in H.
      rewrite Hcfg in H. discriminate.
Qed.

End TaskProperties.

(** C6 (amended), at a task dispatched twice and answered twice, with a
    server-error response. *)
Lemma counters_advance_by_one_witness :
  let w := sample_world (Some scenario_policy) (sample_state (mkTimestamp 5 0) 2 2) in
  (exists w',
     Attempt (mapper := sample_mapper) 500 w = Ok tt w'
     /\ DispatchCount (state (w_task w')) = 2 + 1
     /\ ResponseCount (state (w_task w')) = 2 + 1)
  /\ (exists frozen w',
        Run w = Ok (Cloned frozen) w'
        /\ DispatchCount frozen = 2 + 1
        /\ DispatchCount (state (w_task w')) = 2 + 1
        /\ ResponseCount (state (w_task w')) = 2
        /\ exists w'',
             doDispatch (mapper := sample_mapper) 500 false w' = Ok tt w''
             /\ DispatchCount (state (w_task w'')) = 2 + 1
             /\ ResponseCount (state (w_task w'')) = 2 + 1)
  /\ (forall p w', updateStateForDispatch w = Ok p w' ->
        DispatchCount (state (w_task w')) = 2 + 1)
  /\ (forall p w', updateStateAfterDispatch (mapper := sample_mapper) 500 w = Ok p w' ->
        2 <= DispatchCount (state (w_task w'))
        /\ ResponseCount (state (w_task w')) = 2 + 1)
  /\ (forall p w', updateStateForReschedule w = Ok p w' ->
        2 <= DispatchCount (state (w_task w'))).
Proof.
  apply (counters_advance_by_one (mapper := sample_mapper)
           (sample_world (Some scenario_policy) (sample_state (mkTimestamp 5 0) 2 2))
           500).
  - vm_compute. split; congruence.
  - vm_compute. split; congruence.
Defined.

(** C6 as stated fails: at the largest [int32] the increment of
    update-for-dispatch wraps, and [Run] returns a dispatch count that
    went down to the smallest [int32]. *)
Lemma dispatch_count_wraps :
  let w := sample_world (Some scenario_policy)
             (sample_state (mkTimestamp 5 0) 2147483647 0) in
  exists frozen w',
    Run w = Ok (Cloned frozen) w'
    /\ DispatchCount (state (w_task w)) = 2147483647
    /\ DispatchCount frozen = -2147483648
    /\ DispatchCount (state (w_task w')) = -2147483648.
Proof.
  eexists _, _. split; [vm_compute; reflexivity|]. repeat split.
Qed.

(** C10 as stated fails: the first dispatch of a task due at 5s gives a
    [last_attempt] with that schedule time and a [first_attempt] with
    none; the two records differ. *)
Lemma first_attempt_lacks_schedule_time :
  let w := sample_world (Some scenario_policy) (sample_state (mkTimestamp 5 0) 0 0) in
  exists frozen w',
    updateStateForDispatch w = Ok (Cloned frozen) w'
    /\ LastAttempt frozen =
       Some {| at_ScheduleTime := Some (mkTimestamp 5 0);
               at_DispatchTime := Some (mkTimestamp 1000 0);
               at_ResponseTime := None; at_ResponseStatus := None |}
    /\ FirstAttempt frozen =
       Some {| at_ScheduleTime := None;
               at_DispatchTime := Some (mkTimestamp 1000 0);
               at_ResponseTime := None; at_ResponseStatus := None |}
    /\ FirstAttempt frozen <> LastAttempt frozen.
Proof.
  eexists _, _. split; [vm_compute; reflexivity|].
  split; [reflexivity|]. split; [reflexivity|]. cbn. congruence.
Qed.

(** The specification's scenario: every attempt fails with a server
    error under the policy 1s, 10s, 3 doublings, 5 attempts.  The waits
    are 1s, 2s, 4s and 8s; the fifth failure is out of attempts. *)
Example scenario_backoffs :
  map (reschedule_backoff scenario_policy) [1; 2; 3; 4; 5]
  = [1000000000; 2000000000; 4000000000; 8000000000; 8000000000].
Proof. reflexivity. Qed.

Example scenario_fifth_attempt_exhausted :
  let w := sample_world (Some scenario_policy) (sample_state (mkTimestamp 20 0) 4 4) in
  exists w',
    Attempt (mapper := sample_mapper) 500 w = Ok tt w'
    /\ DispatchCount (state (w_task w')) = 5
    /\ ScheduleTime (state (w_task w')) = Some (mkTimestamp 20 0)
    /\ events_since w w' = [Log "Task exec error with status 500";
                            Log "Ran out of attempts"].
Proof. eexists. split; [vm_compute; reflexivity|]. repeat split. Qed.

(** ** Registry lookups *)

Module RegistryFacts.
Import Registry.

Lemma GetTask_absent s name :
  ts s !! name = None -> GetTask s name = Fail errTaskNotFound.
Proof. intros H. unfold GetTask. rewrite H. reflexivity. Qed.

Lemma GetTask_tombstoned s name :
  ts s !! name = Some None -> GetTask s name = Fail errTaskGone.
Proof. intros H. unfold GetTask. rewrite H. reflexivity. Qed.

Lemma onDone_tombstones s task :
  ts (onDone s task) !! Name (state task) = Some None.
Proof. unfold onDone. cbn [ts]. apply lookup_insert_eq. Qed.

(** The tombstone stays under later completions of other tasks. *)
Lemma onDone_keeps_tombstone s task name :
  ts s !! name = Some None -> ts (onDone s task) !! name = Some None.
Proof.
  intros H. unfold onDone. cbn [ts].
  destruct (decide (Name (state task) = name)) as [->|Hne].
  - apply lookup_insert_eq.
  - rewrite lookup_insert_ne by exact Hne. exact H.
Qed.

(** C8.  A lookup of a task whose name holds a tombstone, as the
    completion callback leaves it, fails with the "existed recently"
    error ([FailedPrecondition]); a lookup of a name that is absent fails
    with the "does not exist" error ([NotFound]); the two errors differ,
    already in their codes. *)
Theorem GetTask_distinguishes_tombstone s name :
  (forall task, Name (state task) = name ->
     GetTask (onDone s task) name = Fail errTaskGone)
  /\ (ts s !! name = Some None -> GetTask s name = Fail errTaskGone)
  /\ (ts s !! name = None -> GetTask s name = Fail errTaskNotFound)
  /\ errTaskGone <> errTaskNotFound
  /\ err_code errTaskGone <> err_code errTaskNotFound.
Proof.
  split; [|split; [|split; [|split]]].
  - intros task <-. apply GetTask_tombstoned, onDone_tombstones.
  - apply GetTask_tombstoned.
  - apply GetTask_absent.
  - discriminate.
  - discriminate.
Qed.

Lemma qs_index_absent s name : qs s !! name = None -> qs_index s name = None.
Proof. intros H. unfold qs_index. rewrite H. reflexivity. Qed.

Lemma qs_index_tombstoned s name :
  qs s !! name = Some None -> qs_index s name = None.
Proof. intros H. unfold qs_index. rewrite H. reflexivity. Qed.

(** On a queue that is absent or a tombstone the four handlers fault. *)
Lemma queue_handlers_fault (Purge Pause Resume : Queue -> Outcome) s name :
  qs_index s name = None ->
  GetQueue s name = Fault
  /\ PurgeQueue Purge s name = Fault
  /\ PauseQueue Pause s name = Fault
  /\ ResumeQueue Resume s name = Fault.
Proof.
  intros H. unfold GetQueue, PurgeQueue, PauseQueue, ResumeQueue, call_then_state.
  rewrite H. repeat split.
Qed.

(** The sibling handler reports the same lookups as errors. *)
Lemma DeleteQueue_reports (Delete : Queue -> Outcome) s name :
  qs_index s name = None ->
  DeleteQueue Delete s name = Fail (Errorf NotFound "Requested entity was not found.").
Proof.
  unfold qs_index, DeleteQueue. destruct (qs s !! name) as [[q|]|]; [discriminate| |];
    reflexivity.
Qed.

(** C9, the code at the failing inputs.  On a fresh server, where the
    queue is absent, and after [DeleteQueue] left a tombstone, the four
    handlers fault instead of reporting a lookup error. *)
Theorem queue_lookup_faults (Purge Pause Resume Delete : Queue -> Outcome) :
  let name := "projects/p/locations/l/queues/q" in
  let deleted := {| qs := {[ name := None ]}; ts := ∅ |} in
  (GetQueue NewServer name = Fault
   /\ PurgeQueue Purge NewServer name = Fault
   /\ PauseQueue Pause NewServer name = Fault
   /\ ResumeQueue Resume NewServer name = Fault)
  /\ (GetQueue deleted name = Fault
      /\ PurgeQueue Purge deleted name = Fault
      /\ PauseQueue Pause deleted name = Fault
      /\ ResumeQueue Resume deleted name = Fault)
  /\ DeleteQueue Delete NewServer name
     = Fail (Errorf NotFound "Requested entity was not found.")
  /\ DeleteQueue Delete deleted name
     = Fail (Errorf NotFound "Requested entity was not found.").
Proof.
  intros name deleted.
  assert (Hnew : qs_index NewServer name = None) by reflexivity.
  assert (Hdel : qs_index deleted name = None).
  { apply qs_index_tombstoned. unfold deleted. cbn [qs]. apply lookup_singleton_eq. }
  split; [apply queue_handlers_fault; exact Hnew|].
  split; [apply queue_handlers_fault; exact Hdel|].
  split; apply DeleteQueue_reports; assumption.
Qed.

End RegistryFacts.

(** * Properties of the rest of the code *)

(** ** One attempt, from dispatch to the reschedule decision *)

Section AttemptFacts.
Context {mapper : StatusMapper}.

Lemma events_since_extends w w' l : extends w w' l -> events_since w w' = l.
Proof.
  unfold extends, events_since. intros ->. apply drop_app_length.
Qed.

Lemma extends_trans w1 w2 w3 l1 l2 :
  extends w1 w2 l1 -> extends w2 w3 l2 -> extends w1 w3 (l1 ++ l2).
Proof.
  unfold extends. intros H1 H2. rewrite H2, H1. symmetry. apply app_assoc.
Qed.


(** A failed attempt with attempts left: the schedule time moves by the
    backoff of the new dispatch count and a wait is armed on it. *)
Lemma Attempt_retry w rc respCode :
  GetRetryConfig (q_state (queue (w_task w))) = Some rc ->
  0 <= DispatchCount (state (w_task w)) < maxInt32 ->
  failed respCode ->
  DispatchCount (state (w_task w)) + 1 < MaxAttempts rc ->
  exists w' now,
    let t := reschedule_time (ScheduleTime (state (w_task w)))
               (ptypes.DurationProto
                  (reschedule_backoff rc (DispatchCount (state (w_task w)) + 1))) in
    Attempt respCode w = Ok tt w'
    /\ extends w w'
         [Log ("Task exec error with status " +:+ Itoa respCode);
          Armed (Some t) now]
    /\ DispatchCount (state (w_task w')) = DispatchCount (state (w_task w)) + 1
    /\ ScheduleTime (state (w_task w')) = Some t
    /\ queue (w_task w') = queue (w_task w).
Proof.
  intros Hrc Hdc Hko Hlt. unfold maxInt32 in Hdc.
  destruct (updateStateForDispatch_run w)
    as (s1 & Hrun & _ & Hs1 & Hd1 & _ & Hl1 & _).
  rewrite int32_id in Hd1 by (unfold in_int32, minInt32, maxInt32; lia).
  unfold Attempt, bind. rewrite Hrun.
  match goal with |- context [doDispatch respCode true ?w1] =>
    destruct (updateStateAfterDispatch_run w1 _ respCode Hl1)
      as (s2 & status & Hrun2 & _ & Hs2 & Hd2 & _) end.
  cbn [w_task state queue w_now w_reads w_trace] in Hrun2, Hs2, Hd2.
  unfold doDispatch, bind. rewrite Hrun2.
  match goal with |- context [reschedule true respCode ?w2] =>
    pose proof (reschedule_again w2 rc respCode Hko) as Hagain end.
  cbn [w_task state queue w_now w_reads w_trace] in Hagain.
  rewrite Hagain by (assumption || lia). clear Hagain.
  eexists _, _. cbn zeta. split; [reflexivity|]. unfold extends.
  cbn [w_task state queue w_trace set_ScheduleTime ScheduleTime DispatchCount].
  rewrite Hs2, Hs1, Hd2, Hd1.
  split; [rewrite <- app_assoc; reflexivity|].
  split; [reflexivity|]. split; reflexivity.
Qed.

(** A failed attempt that uses up the attempts: only the log. *)
Lemma Attempt_exhausted w respCode :
  0 <= DispatchCount (state (w_task w)) < maxInt32 ->
  failed respCode ->
  GetMaxAttempts (GetRetryConfig (q_state (queue (w_task w))))
    <= DispatchCount (state (w_task w)) + 1 ->
  exists w',
    Attempt respCode w = Ok tt w'
    /\ extends w w'
         [Log ("Task exec error with status " +:+ Itoa respCode);
          Log "Ran out of attempts"]
    /\ DispatchCount (state (w_task w')) = DispatchCount (state (w_task w)) + 1
    /\ ScheduleTime (state (w_task w')) = ScheduleTime (state (w_task w))
    /\ queue (w_task w') = queue (w_task w).
Proof.
  intros Hdc Hko Hmax. unfold maxInt32 in Hdc.
  destruct (updateStateForDispatch_run w)
    as (s1 & Hrun & _ & Hs1 & Hd1 & _ & Hl1 & _).
  rewrite int32_id in Hd1 by (unfold in_int32, minInt32, maxInt32; lia).
  unfold Attempt, bind. rewrite Hrun.
  match goal with |- context [doDispatch respCode true ?w1] =>
    destruct (updateStateAfterDispatch_run w1 _ respCode Hl1)
      as (s2 & status & Hrun2 & _ & Hs2 & Hd2 & _) end.
  cbn [w_task state queue w_now w_reads w_trace] in Hrun2, Hs2, Hd2.
  unfold doDispatch, bind. rewrite Hrun2.
  rewrite reschedule_exhausted
    by (try exact Hko; cbn [w_task state queue]; rewrite Hd2, Hd1; exact Hmax).
  eexists. split; [reflexivity|]. unfold extends.
  cbn [w_task state queue w_trace].
  split; [rewrite <- app_assoc; reflexivity|].
  split; [congruence|]. split; [congruence|reflexivity].
Qed.

End AttemptFacts.

Lemma count_events_app p l1 l2 :
  count_events p (l1 ++ l2) = (count_events p l1 + count_events p l2)%nat.
Proof. unfold count_events. rewrite filter_app, length_app. reflexivity. Qed.

Section AttemptProperties.
Context {mapper : StatusMapper}.


(** Failing attempts in a row, from dispatch count [dc] up to max
    attempts: every attempt but the last arms a wait. *)
Lemma attempts_from w rc respCodes :
  GetRetryConfig (q_state (queue (w_task w))) = Some rc ->
  0 <= DispatchCount (state (w_task w)) ->
  MaxAttempts rc <= maxInt32 ->
  Forall failed respCodes ->
  respCodes <> [] ->
  DispatchCount (state (w_task w)) + Z.of_nat (length respCodes) = MaxAttempts rc ->
  exists w' l,
    attempts respCodes w = Ok tt w'
    /\ extends w w' l
    /\ DispatchCount (state (w_task w')) = MaxAttempts rc
    /\ count_events is_Armed l = (length respCodes - 1)%nat
    /\ count_events is_OnDone l = 0%nat
    /\ last l = Some (Log "Ran out of attempts").
Proof.
  intros Hrc Hdc Hmax Hall. revert w Hrc Hdc.
  induction Hall as [|respCode rest Hko Hrest IH]; intros w Hrc Hdc Hne Hlen;
    [contradiction|].
  cbn [length] in Hlen. cbn [attempts]. unfold bind.
  destruct rest as [|next rest'].
  - cbn [length] in Hlen.
    destruct (Attempt_exhausted w respCode) as (w' & Hrun & Hext & Hd & _).
    { unfold maxInt32 in *. lia. }
    { exact Hko. }
    { rewrite Hrc. cbn [GetMaxAttempts]. lia. }
    rewrite Hrun. cbn [attempts]. unfold ret.
    eexists _, _. split; [reflexivity|]. split; [exact Hext|].
    split; [lia|]. repeat split.
  - destruct (Attempt_retry w rc respCode Hrc) as (w1 & now & Hrun & Hext & Hd & _ & Hq).
    { unfold maxInt32 in *. cbn [length] in Hlen. lia. }
    { exact Hko. }
    { cbn [length] in Hlen. lia. }
    rewrite Hrun.
    destruct (IH w1) as (w' & l & Hrun' & Hext' & Hd' & Harm & Hdone & Hlast).
    { rewrite Hq. exact Hrc. }
    { lia. }
    { discriminate. }
    { rewrite Hd. cbn [length] in *. lia. }
    exists w'. eexists. split; [exact Hrun'|].
    split; [exact (extends_trans _ _ _ _ _ Hext Hext')|].
    split; [exact Hd'|].
    rewrite !count_events_app, Harm, Hdone.
    match goal with |- (count_events is_Armed ?l0 + _)%nat = _ /\ _ =>
      change (count_events is_Armed l0) with 1%nat;
      change (count_events is_OnDone l0) with 0%nat end.
    split; [cbn [length]; lia|]. split; [reflexivity|].
    destruct l as [|e l']; [discriminate|].
    cbn [app]. exact Hlast.
Qed.

(** X2.  A fresh task (dispatch count 0) whose every response is a
    failure is attempted max-attempts times: each attempt but the last
    arms a new wait, the last one logs that the attempts ran out, and
    the completion callback is never called. *)
Theorem attempts_until_exhausted w rc respCodes :
  GetRetryConfig (q_state (queue (w_task w))) = Some rc ->
  DispatchCount (state (w_task w)) = 0 ->
  1 <= MaxAttempts rc <= maxInt32 ->
  Forall failed respCodes ->
  Z.of_nat (length respCodes) = MaxAttempts rc ->
  exists w',
    attempts respCodes w = Ok tt w'
    /\ DispatchCount (state (w_task w')) = MaxAttempts rc
    /\ count_events is_Armed (events_since w w') = (length respCodes - 1)%nat
    /\ count_events is_OnDone (events_since w w') = 0%nat
    /\ last (events_since w w') = Some (Log "Ran out of attempts").
Proof.
  intros Hrc Hdc Hmax Hall Hlen.
  destruct (attempts_from w rc respCodes Hrc) as (w' & l & Hrun & Hext & Hd & H).
  { lia. }
  { lia. }
  { exact Hall. }
  { intros ->. cbn in Hlen. lia. }
  { lia. }
  exists w'. rewrite (events_since_extends _ _ _ Hext).
  split; [exact Hrun|]. split; [exact Hd|]. exact H.
Qed.

End AttemptProperties.


(** X2, at the scenario policy with five server errors. *)
Lemma attempts_until_exhausted_witness :
  let w := sample_world (Some scenario_policy) (sample_state (mkTimestamp 5 0) 0 0) in
  exists w',
    attempts (mapper := sample_mapper) [500; 500; 503; 500; 404] w = Ok tt w'
    /\ DispatchCount (state (w_task w')) = 5
    /\ count_events is_Armed (events_since w w') = 4%nat
    /\ count_events is_OnDone (events_since w w') = 0%nat
    /\ last (events_since w w') = Some (Log "Ran out of attempts").
Proof.
  apply (attempts_until_exhausted (mapper := sample_mapper)
           (sample_world (Some scenario_policy) (sample_state (mkTimestamp 5 0) 0 0))
           scenario_policy [500; 500; 503; 500; 404]).
  - reflexivity.
  - reflexivity.
  - vm_compute. split; congruence.
  - repeat constructor; unfold failed; lia.
  - reflexivity.
Defined.

(** ** How far a reschedule moves the schedule time *)




(** ** The pattern search *)

Module RegexpFacts.
Import regexp.

Lemma app_cons c s t : String c s +:+ t = String c (s +:+ t).
Proof. reflexivity. Qed.

Lemma app_nil_l s : EmptyString +:+ s = s.
Proof. reflexivity. Qed.

Lemma app_nil_r s : s +:+ EmptyString = s.
Proof. induction s as [|c s IH]; [reflexivity|]. rewrite app_cons, IH. reflexivity. Qed.

Lemma app_assoc s t u : (s +:+ t) +:+ u = s +:+ t +:+ u.
Proof.
  induction s as [|c s IH]; [reflexivity|]. rewrite !app_cons, IH. reflexivity.
Qed.

Lemma length_app s t :
  String.length (s +:+ t) = (String.length s + String.length t)%nat.
Proof.
  induction s as [|c s IH]; [reflexivity|].
  rewrite app_cons. cbn [String.length]. rewrite IH. reflexivity.
Qed.

Lemma strip_prefix_app text s : strip_prefix text (text +:+ s) = Some s.
Proof.
  induction text as [|c text IH]; [reflexivity|].
  rewrite app_cons. cbn [strip_prefix]. rewrite Ascii.eqb_refl. exact IH.
Qed.

Lemma strip_prefix_Some text s s' :
  strip_prefix text s = Some s' -> s = text +:+ s'.
Proof.
  revert s. induction text as [|c text IH]; intros s H.
  - cbn in H. injection H as ->. reflexivity.
  - destruct s as [|b s]; [discriminate|]. cbn [strip_prefix] in H.
    destruct (Ascii.eqb_spec c b) as [->|]; [|discriminate].
    rewrite app_cons. f_equal. apply IH. exact H.
Qed.

Lemma take_drop n s : take_str n s +:+ drop_str n s = s.
Proof.
  revert s. induction n as [|n IH]; intros s; [destruct s; reflexivity|].
  destruct s as [|c s]; [reflexivity|].
  cbn [take_str drop_str]. rewrite app_cons, IH. reflexivity.
Qed.

Lemma take_length_app s t : take_str (String.length s) (s +:+ t) = s.
Proof.
  induction s as [|c s IH]; [destruct t; reflexivity|].
  rewrite app_cons. cbn [String.length take_str]. rewrite IH. reflexivity.
Qed.

Lemma drop_length_app s t : drop_str (String.length s) (s +:+ t) = t.
Proof.
  induction s as [|c s IH]; [destruct t; reflexivity|].
  rewrite app_cons. cbn [String.length drop_str]. exact IH.
Qed.

Lemma drop_length_le n s : (String.length (drop_str n s) <= String.length s)%nat.
Proof.
  revert s. induction n as [|n IH]; intros s; [destruct s; cbn; lia|].
  destruct s as [|c s]; [cbn; lia|]. cbn [drop_str String.length].
  specialize (IH s). lia.
Qed.

Lemma take_nonempty n s :
  (1 <= n <= String.length s)%nat -> take_str n s <> EmptyString.
Proof.
  intros H. destruct n as [|n]; [lia|].
  destruct s as [|c s]; [cbn in H; lia|]. discriminate.
Qed.

Lemma span_le class s : (span class s <= String.length s)%nat.
Proof.
  induction s as [|c s IH]; [cbn; lia|]. cbn [span String.length].
  destruct (class c); lia.
Qed.

(** Every prefix inside the span is in the class. *)
Lemma all_in_take class n s :
  (n <= span class s)%nat -> all_in class (take_str n s) = true.
Proof.
  revert s. induction n as [|n IH]; intros s H; [destruct s; reflexivity|].
  destruct s as [|c s]; [reflexivity|]. cbn [span] in H.
  destruct (class c) eqn:E; [|lia].
  cbn [take_str all_in]. rewrite E. apply IH. lia.
Qed.

(** A run of the class is inside the span of whatever follows it. *)
Lemma span_app_ge class run s :
  all_in class run = true -> (String.length run <= span class (run +:+ s))%nat.
Proof.
  induction run as [|c run IH]; intros H; [cbn; lia|].
  cbn [all_in] in H. apply andb_true_iff in H as [Hc Hr].
  rewrite app_cons. cbn [span String.length]. rewrite Hc. specialize (IH Hr). lia.
Qed.

(** The span ends where the class ends. *)
Lemma span_app_stop class run s :
  all_in class run = true -> span class s = O ->
  span class (run +:+ s) = String.length run.
Proof.
  induction run as [|c run IH]; intros H Hs; [exact Hs|].
  cbn [all_in] in H. apply andb_true_iff in H as [Hc Hr].
  rewrite app_cons. cbn [span String.length]. rewrite Hc. f_equal. apply IH; assumption.
Qed.

Lemma longest_first_Some {A} n (f : nat -> option A) r :
  longest_first n f = Some r -> exists k, (1 <= k <= n)%nat /\ f k = Some r.
Proof.
  induction n as [|n IH]; [discriminate|]. cbn [longest_first].
  destruct (f (S n)) as [r'|] eqn:E.
  - intros H. injection H as <-. exists (S n). split; [lia|exact E].
  - intros H. destruct (IH H) as (k & Hk & Hf). exists k. split; [lia|exact Hf].
Qed.

Lemma longest_first_is_Some {A} n (f : nat -> option A) k :
  (1 <= k <= n)%nat -> is_Some (f k) -> is_Some (longest_first n f).
Proof.
  induction n as [|n IH]; [lia|]. intros Hk Hf. cbn [longest_first].
  destruct (f (S n)) as [r'|] eqn:E; [eexists; reflexivity|].
  apply IH; [|exact Hf].
  destruct (decide (k = S n)) as [->|]; [|lia].
  rewrite E in Hf. destruct Hf as [? ?]. discriminate.
Qed.

(** The longest run is taken when the rest matches after it. *)
Lemma longest_first_top {A} n (f : nat -> option A) r :
  f (S n) = Some r -> longest_first (S n) f = Some r.
Proof. intros H. cbn [longest_first]. rewrite H. reflexivity. Qed.

(** What [match_here] finds is a text of the pattern at the start. *)
Lemma match_here_sound re s captures rest :
  match_here re s = Some (captures, rest) ->
  exists body, s = body +:+ rest /\ Lang re body.
Proof.
  revert s captures rest.
  induction re as [|[text|class|class] re IH]; intros s captures rest H.
  - cbn in H. injection H as _ <-. exists EmptyString. split; reflexivity.
  - cbn [match_here] in H. destruct (strip_prefix text s) as [s'|] eqn:E; [|discriminate].
    apply strip_prefix_Some in E as ->.
    destruct (IH _ _ _ H) as (body & -> & HL).
    exists (text +:+ body). split; [symmetry; apply app_assoc|].
    cbn [Lang]. exists body. split; [reflexivity|exact HL].
  - cbn [match_here] in H.
    apply longest_first_Some in H as (k & Hk & H).
    destruct (IH _ _ _ H) as (body & Hs & HL).
    exists (take_str k s +:+ body). split.
    + rewrite app_assoc, <- Hs. symmetry. apply take_drop.
    + cbn [Lang]. exists (take_str k s), body. split; [reflexivity|].
      split; [|split; [|exact HL]].
      * apply take_nonempty. pose proof (span_le class s). lia.
      * apply all_in_take. lia.
  - cbn [match_here] in H.
    apply longest_first_Some in H as (k & Hk & H).
    destruct (match_here re (drop_str k s)) as [[caps rest']|] eqn:E; [|discriminate].
    injection H as _ <-.
    destruct (IH _ _ _ E) as (body & Hs & HL).
    exists (take_str k s +:+ body). split.
    + rewrite app_assoc, <- Hs. symmetry. apply take_drop.
    + cbn [Lang]. exists (take_str k s), body. split; [reflexivity|].
      split; [|split; [|exact HL]].
      * apply take_nonempty. pose proof (span_le class s). lia.
      * apply all_in_take. lia.
Qed.

(** A text of the pattern at the start is found, whatever follows. *)
Lemma match_here_complete re body rest :
  Lang re body -> is_Some (match_here re (body +:+ rest)).
Proof.
  revert body. induction re as [|[text|class|class] re IH]; intros body HL.
  - eexists. reflexivity.
  - cbn [Lang] in HL. destruct HL as (body' & -> & HL).
    cbn [match_here]. rewrite app_assoc, strip_prefix_app. apply IH. exact HL.
  - cbn [Lang] in HL. destruct HL as (run & body' & -> & Hne & Hall & HL).
    cbn [match_here]. rewrite app_assoc.
    apply longest_first_is_Some with (k := String.length run).
    + split; [destruct run; [contradiction|cbn; lia]|].
      apply span_app_ge. exact Hall.
    + rewrite drop_length_app. apply IH. exact HL.
  - cbn [Lang] in HL. destruct HL as (run & body' & -> & Hne & Hall & HL).
    cbn [match_here]. rewrite app_assoc.
    apply longest_first_is_Some with (k := String.length run).
    + split; [destruct run; [contradiction|cbn; lia]|].
      apply span_app_ge. exact Hall.
    + rewrite drop_length_app.
      destruct (IH body' HL) as [[caps rest'] E]. rewrite E. eexists. reflexivity.
Qed.

Lemma find_sound re s l : find re s = Some l -> contains re s.
Proof.
  induction s as [|c s IH].
  - cbn [find]. destruct (match_here re EmptyString) as [[caps rest]|] eqn:E;
      [|discriminate].
    intros _. destruct (match_here_sound _ _ _ _ E) as (body & Hs & HL).
    exists EmptyString, body, rest. split; [exact Hs|exact HL].
  - cbn [find]. destruct (match_here re (String c s)) as [[caps rest]|] eqn:E.
    + intros _. destruct (match_here_sound _ _ _ _ E) as (body & Hs & HL).
      exists EmptyString, body, rest. split; [exact Hs|exact HL].
    + intros H. destruct (IH H) as (pre & body & post & -> & HL).
      exists (String c pre), body, post. split; [reflexivity|exact HL].
Qed.

Lemma find_complete re pre body post :
  Lang re body -> is_Some (find re (pre +:+ body +:+ post)).
Proof.
  intros HL. induction pre as [|c pre IH].
  - rewrite app_nil_l.
    destruct (match_here_complete re body post HL) as [[caps rest] E].
    destruct (body +:+ post); cbn [find]; rewrite E; eexists; reflexivity.
  - rewrite app_cons. cbn [find].
    destruct (match_here re (String c (pre +:+ body +:+ post))) as [[caps rest]|];
      [eexists; reflexivity|exact IH].
Qed.

(** [MatchString] answers whether some part of the text matches. *)
Lemma MatchString_contains re s : MatchString re s = true <-> contains re s.
Proof.
  unfold MatchString. split.
  - destruct (find re s) as [l|] eqn:E; [|discriminate].
    intros _. exact (find_sound re s l E).
  - intros (pre & body & post & -> & HL).
    destruct (find_complete re pre body post HL) as [l ->]. reflexivity.
Qed.

End RegexpFacts.

(** ** The handlers of the server *)

Module HandlerFacts.
Import Registry Handlers.

(** The texts of the queue-name pattern are the well-formed names. *)
Lemma Lang_queue_name body :
  regexp.Lang queueNamePattern body <->
  exists project location queue,
    body = queue_name_of project location queue
    /\ is_id regexp.any_id project /\ is_id regexp.any_id location
    /\ is_id regexp.any_id queue.
Proof.
  unfold queueNamePattern, queue_name_of, is_id. cbn [regexp.Lang]. split.
  - intros (b1 & -> & p & b2 & -> & Hp & Hpa & b3 & -> & l & b4 & -> & Hl & Hla
            & b5 & -> & q & b6 & -> & Hq & Hqa & ->).
    exists p, l, q. rewrite RegexpFacts.app_nil_r. repeat split; assumption.
  - intros (p & l & q & -> & [Hp Hpa] & [Hl Hla] & [Hq Hqa]).
    eexists. split; [reflexivity|]. exists p. eexists. split; [reflexivity|].
    split; [exact Hp|]. split; [exact Hpa|].
    eexists. split; [reflexivity|]. exists l. eexists. split; [reflexivity|].
    split; [exact Hl|]. split; [exact Hla|].
    eexists. split; [reflexivity|]. exists q, EmptyString.
    rewrite RegexpFacts.app_nil_r. repeat split; assumption.
Qed.

Lemma errQueueName_not_errParent : errParent <> errQueueName.
Proof. intros H. vm_compute in H. discriminate. Qed.

(** X4.  [CreateQueue] rejects a queue name as badly formatted exactly
    when no part of it is a well-formed name: the name is searched for
    [projects/<id>/locations/<id>/queues/<id>], so any text before or
    after a well-formed name is accepted with it. *)
Theorem CreateQueue_searches_name
    (NewQueue : string -> option QueueState -> Queue * option QueueState)
    s parent queueState :
  CreateQueue NewQueue s parent queueState = Fail errQueueName <->
  ~ (exists pre project location queue post,
       GetQueueName queueState = pre +:+ queue_name_of project location queue +:+ post
       /\ is_id regexp.any_id project /\ is_id regexp.any_id location
       /\ is_id regexp.any_id queue).
Proof.
  unfold CreateQueue. cbv zeta.
  destruct (regexp.MatchString queueNamePattern (GetQueueName queueState)) eqn:E;
    cbn [negb].
  - apply RegexpFacts.MatchString_contains in E.
    destruct E as (pre & body & post & Hname & HL).
    apply Lang_queue_name in HL as (p & l & q & -> & Hids).
    split.
    + intros H. exfalso.
      destruct (regexp.MatchString parentPattern parent); cbn [negb] in H.
      * destruct (qs s !! GetQueueName queueState) as [[?|]|];
          [discriminate|discriminate|].
        destruct (NewQueue (GetQueueName queueState) queueState). discriminate.
      * apply errQueueName_not_errParent.
        exact (f_equal (fun r => match r with Fail e => e | _ => errParent end) H).
    + intros Hno. exfalso. apply Hno. exists pre, p, l, q, post.
      split; [exact Hname|exact Hids].
  - split; [|reflexivity]. intros _ (pre & p & l & q & post & Hname & Hids).
    assert (regexp.MatchString queueNamePattern (GetQueueName queueState) = true)
      as Htrue; [|rewrite Htrue in E; discriminate].
    apply RegexpFacts.MatchString_contains.
    exists pre, (queue_name_of p l q), post. split; [exact Hname|].
    apply Lang_queue_name. exists p, l, q. split; [reflexivity|exact Hids].
Qed.

(** A name with text around it passes the check. *)
Example CreateQueue_accepts_padded_name :
  regexp.MatchString queueNamePattern
    "see projects/demo/locations/here/queues/Q-1 (and more)" = true.
Proof. reflexivity. Qed.

Lemma ListQueues_live s name queue :
  qs s !! name = Some (Some queue) -> q_state queue ∈ ListQueues s.
Proof.
  intros Hlook. unfold ListQueues. apply list_elem_of_omap.
  exists (name, Some queue). split; [|reflexivity].
  apply elem_of_map_to_list. exact Hlook.
Qed.

(** X6.  [ListQueues] returns the states of exactly the queues that are
    live: every queue bound to a non-nil entry is listed and no deleted
    queue is. *)
Theorem ListQueues_lists_live_queues s (st : option QueueState) :
  st ∈ ListQueues s <->
  exists name queue, qs s !! name = Some (Some queue) /\ q_state queue = st.
Proof.
  unfold ListQueues. rewrite list_elem_of_omap. split.
  - intros ([name [queue|]] & Hin & Hf); cbn in Hf; [|discriminate].
    injection Hf as <-. apply elem_of_map_to_list in Hin.
    exists name, queue. split; [exact Hin|reflexivity].
  - intros (name & queue & Hlook & <-).
    exists (name, Some queue). split; [|reflexivity].
    apply elem_of_map_to_list. exact Hlook.
Qed.

Section WithQueueCode.
Variable NewQueue : string -> option QueueState -> Queue * option QueueState.
Variable Queue_NewTask : Queue -> option TaskState -> Queue * Task * option TaskState.
Variable Queue_ts : Queue -> gmap string (option Task).
Variables Purge Pause Resume Delete : Queue -> Outcome.

Lemma call_then_state_live method s name st s' :
  call_then_state method s name = Resp (st, s') ->
  exists queue queue',
    qs s !! name = Some (Some queue)
    /\ s' = {| qs := <[name := Some queue']> (qs s); ts := ts s |}.
Proof.
  unfold call_then_state, qs_index.
  destruct (qs s !! name) as [[queue|]|]; [|discriminate|discriminate].
  destruct (method queue) as [queue'|]; [|discriminate].
  intros H. injection H as _ <-. exists queue, queue'. split; reflexivity.
Qed.

(** No request writes under a name that holds a deleted queue. *)
Lemma serve_keeps_deleted s req s' name :
  qs s !! name = Some None ->
  serve NewQueue Queue_NewTask Queue_ts Purge Pause Resume Delete s req = Some s' ->
  qs s' !! name = Some None.
Proof.
  intros Hdel. destruct req; cbn [serve].
  - unfold CreateQueue. cbv zeta.
    destruct (negb (regexp.MatchString queueNamePattern (GetQueueName queueState)));
      [intros H; injection H as <-; exact Hdel|].
    destruct (negb (regexp.MatchString parentPattern parent));
      [intros H; injection H as <-; exact Hdel|].
    destruct (qs s !! GetQueueName queueState) as [[?|]|] eqn:E;
      [intros H; injection H as <-; exact Hdel
      |intros H; injection H as <-; exact Hdel|].
    destruct (NewQueue (GetQueueName queueState) queueState) as [queue st].
    cbn [after snd]. intros H. injection H as <-. cbn [qs].
    rewrite lookup_insert_ne; [exact Hdel|]. intros Heq. rewrite Heq in E. congruence.
  - unfold DeleteQueue.
    destruct (qs s !! name0) as [[queue|]|] eqn:E;
      [|intros H; injection H as <-; exact Hdel
       |intros H; injection H as <-; exact Hdel].
    destruct (Delete queue); [|discriminate].
    cbn [after id]. intros H. injection H as <-. cbn [qs].
    rewrite lookup_insert_ne; [exact Hdel|]. intros ->. congruence.
  - unfold PurgeQueue.
    destruct (call_then_state Purge s name0) as [[st s1]|e|] eqn:E;
      cbn [after snd]; [|intros H; injection H as <-; exact Hdel|discriminate].
    intros H. injection H as <-.
    apply call_then_state_live in E as (queue & queue' & Hlive & ->). cbn [qs].
    rewrite lookup_insert_ne; [exact Hdel|]. intros ->. congruence.
  - unfold PauseQueue.
    destruct (call_then_state Pause s name0) as [[st s1]|e|] eqn:E;
      cbn [after snd]; [|intros H; injection H as <-; exact Hdel|discriminate].
    intros H. injection H as <-.
    apply call_then_state_live in E as (queue & queue' & Hlive & ->). cbn [qs].
    rewrite lookup_insert_ne; [exact Hdel|]. intros ->. congruence.
  - unfold ResumeQueue.
    destruct (call_then_state Resume s name0) as [[st s1]|e|] eqn:E;
      cbn [after snd]; [|intros H; injection H as <-; exact Hdel|discriminate].
    intros H. injection H as <-.
    apply call_then_state_live in E as (queue & queue' & Hlive & ->). cbn [qs].
    rewrite lookup_insert_ne; [exact Hdel|]. intros ->. congruence.
  - unfold CreateTask.
    destruct (qs s !! parent) as [[queue|]|] eqn:E;
      [|intros H; injection H as <-; exact Hdel
       |intros H; injection H as <-; exact Hdel].
    destruct (Queue_NewTask queue spec) as [[queue' task] taskState].
    cbn [after snd]. intros H. injection H as <-. cbn [qs].
    rewrite lookup_insert_ne; [exact Hdel|]. intros ->. congruence.
  - unfold DeleteTask.
    destruct (ts s !! name0) as [[task|]|]; cbn [after id];
      intros H; injection H as <-; exact Hdel.
  - unfold RunTask.
    destruct (ts s !! name0) as [[task|]|]; cbn [after];
      [|intros H; injection H as <-; exact Hdel
       |intros H; injection H as <-; exact Hdel].
    destruct (Run _) as [p w'|]; cbn [after snd]; [|discriminate].
    intros H. injection H as <-. exact Hdel.
  - destruct (GetQueue s name0); cbn [after]; [| |discriminate];
      intros H; injection H as <-; exact Hdel.
  - intros H. injection H as <-. exact Hdel.
  - destruct (GetTask s name0); cbn [after]; [| |discriminate];
      intros H; injection H as <-; exact Hdel.
  - destruct (ListTasks Queue_ts s parent); cbn [after]; [| |discriminate];
      intros H; injection H as <-; exact Hdel.
  - intros H. injection H as <-. exact Hdel.
Qed.

Lemma serve_all_keeps_deleted reqs s s' name :
  qs s !! name = Some None ->
  serve_all NewQueue Queue_NewTask Queue_ts Purge Pause Resume Delete s reqs = Some s' ->
  qs s' !! name = Some None.
Proof.
  revert s. induction reqs as [|req reqs IH]; intros s Hdel; cbn [serve_all].
  - intros H. injection H as <-. exact Hdel.
  - destruct (serve _ _ _ _ _ _ _ s req) as [s1|] eqn:E; [|discriminate].
    intros H. apply (IH s1); [|exact H].
    exact (serve_keeps_deleted s req s1 name Hdel E).
Qed.

(** X5.  Once [DeleteQueue] has succeeded on a name, the name stays
    taken: after any further requests that the server survives, the entry
    is still the nil marker, so [CreateQueue] with that name fails,
    [CreateTask] in it fails with the queue-gone error, and
    [DeleteQueue] again reports not found. *)
Theorem deleted_queue_stays_deleted s0 s reqs s' name :
  DeleteQueue Delete s0 name = Resp s ->
  serve_all NewQueue Queue_NewTask Queue_ts Purge Pause Resume Delete s reqs = Some s' ->
  qs s' !! name = Some None
  /\ (forall parent queueState,
        GetQueueName queueState = name ->
        CreateQueue NewQueue s' parent queueState = Fail errQueueName
        \/ CreateQueue NewQueue s' parent queueState = Fail errParent
        \/ CreateQueue NewQueue s' parent queueState = Fail errQueueTooRecent)
  /\ (forall spec, CreateTask Queue_NewTask s' name spec = Fail errQueueGone)
  /\ DeleteQueue Delete s' name
     = Fail (Errorf NotFound "Requested entity was not found.").
Proof.
  intros Hdel Hrun.
  assert (Hs : qs s !! name = Some None).
  { unfold DeleteQueue in Hdel.
    destruct (qs s0 !! name) as [[queue|]|]; [|discriminate|discriminate].
    destruct (Delete queue); [|discriminate].
    injection Hdel as <-. cbn [qs]. apply lookup_insert_eq. }
  pose proof (serve_all_keeps_deleted reqs s s' name Hs Hrun) as Hs'.
  split; [exact Hs'|]. split; [|split].
  - intros parent queueState <-. unfold CreateQueue. cbv zeta.
    destruct (negb (regexp.MatchString queueNamePattern (GetQueueName queueState)));
      [left; reflexivity|].
    destruct (negb (regexp.MatchString parentPattern parent));
      [right; left; reflexivity|].
    rewrite Hs'. right; right; reflexivity.
  - intros spec. unfold CreateTask. rewrite Hs'. reflexivity.
  - unfold DeleteQueue. rewrite Hs'. reflexivity.
Qed.


(** X8.  [ListTasks] reads the queue without a check: for a queue that
    is absent or deleted it faults; for a live queue it returns the
    states of exactly the tasks in the queue's own map that are not nil. *)
Theorem ListTasks_lists_or_faults s parent :
  (qs_index s parent = None -> ListTasks Queue_ts s parent = Fault)
  /\ (forall queue,
        qs s !! parent = Some (Some queue) ->
        exists l,
          ListTasks Queue_ts s parent = Resp l
          /\ forall st,
               st ∈ l <->
               exists name task,
                 Queue_ts queue !! name = Some (Some task) /\ state task = st).
Proof.
  unfold ListTasks, qs_index. split.
  - intros H. destruct (qs s !! parent) as [[queue|]|]; [discriminate| |]; reflexivity.
  - intros queue ->. eexists. split; [reflexivity|]. intros st.
    rewrite list_elem_of_omap. split.
    + intros ([name [task|]] & Hin & Hf); cbn in Hf; [|discriminate].
      injection Hf as <-. apply elem_of_map_to_list in Hin.
      exists name, task. split; [exact Hin|reflexivity].
    + intros (name & task & Hlook & <-).
      exists (name, Some task). split; [|reflexivity].
      apply elem_of_map_to_list. exact Hlook.
Qed.

End WithQueueCode.


End HandlerFacts.

(** X5, at a server whose queue is deleted and then asked for again. *)
Lemma deleted_queue_stays_deleted_witness :
  let reqs :=
    [Handlers.ReqCreateQueue "projects/p/locations/l"
       (Some (sample_queue_state sample_queue_name));
     Handlers.ReqCreateTask sample_queue_name None;
     Handlers.ReqDeleteQueue sample_queue_name] in
  Registry.qs sample_server_deleted !! sample_queue_name = Some None
  /\ (forall parent queueState,
        Handlers.GetQueueName queueState = sample_queue_name ->
        Handlers.CreateQueue sample_NewQueue sample_server_deleted parent queueState
          = Registry.Fail Handlers.errQueueName
        \/ Handlers.CreateQueue sample_NewQueue sample_server_deleted parent queueState
           = Registry.Fail Handlers.errParent
        \/ Handlers.CreateQueue sample_NewQueue sample_server_deleted parent queueState
           = Registry.Fail Handlers.errQueueTooRecent)
  /\ (forall spec,
        Handlers.CreateTask sample_Queue_NewTask sample_server_deleted
          sample_queue_name spec
        = Registry.Fail Handlers.errQueueGone)
  /\ Registry.DeleteQueue sample_method sample_server_deleted sample_queue_name
     = Registry.Fail
         (Registry.Errorf Registry.NotFound "Requested entity was not found.").
Proof.
  apply (HandlerFacts.deleted_queue_stays_deleted
           sample_NewQueue sample_Queue_NewTask (fun _ => ∅)
           sample_method sample_method sample_method sample_method
           sample_server_live sample_server_deleted
           [Handlers.ReqCreateQueue "projects/p/locations/l"
              (Some (sample_queue_state sample_queue_name));
            Handlers.ReqCreateTask sample_queue_name None;
            Handlers.ReqDeleteQueue sample_queue_name]
           sample_server_deleted sample_queue_name).
  - vm_compute. reflexivity.
  - vm_compute. reflexivity.
Defined.


(** ** Task creation *)

Module CreationFacts.
Import regexp Creation.

Lemma is_empty_app a b : is_empty (a +:+ b) = is_empty a && is_empty b.
Proof. destruct a; [destruct b|]; reflexivity. Qed.

Lemma is_empty_false s : is_empty s = false <-> s <> EmptyString.
Proof.
  destruct s; cbn; split; intros H; try reflexivity; try discriminate.
  exfalso. apply H. reflexivity.
Qed.

(** The name after [setInitialTaskState] is never empty. *)
Lemma effective_name_nonempty name queueName id :
  is_empty (if is_empty name then queueName +:+ "/tasks/" +:+ id else name) = false.
Proof.
  destruct (is_empty name) eqn:E; [|exact E].
  rewrite is_empty_app. destruct (is_empty queueName); reflexivity.
Qed.

Lemma default_method_idem m : default_method (default_method m) = default_method m.
Proof. destruct m; reflexivity. Qed.

Lemma default_method_set m : default_method m <> HTTP_METHOD_UNSPECIFIED.
Proof. destruct m; discriminate. Qed.

Lemma setInitialHttp_idem r : setInitialHttp (setInitialHttp r) = setInitialHttp r.
Proof.
  unfold setInitialHttp. cbn [hr_Url hr_HttpMethod hr_Headers hr_Body].
  rewrite default_method_idem, insert_insert_eq. reflexivity.
Qed.

(** The number of captures is the number of groups. *)
Lemma match_here_captures re s captures rest :
  match_here re s = Some (captures, rest) -> length captures = groups re.
Proof.
  revert s captures rest.
  induction re as [|[text|class|class] re IH]; intros s captures rest H.
  - cbn in H. injection H as <- _. reflexivity.
  - cbn [match_here] in H. destruct (strip_prefix text s); [|discriminate].
    exact (IH _ _ _ H).
  - cbn [match_here] in H. apply RegexpFacts.longest_first_Some in H as (k & _ & H).
    exact (IH _ _ _ H).
  - cbn [match_here] in H. apply RegexpFacts.longest_first_Some in H as (k & _ & H).
    destruct (match_here re (drop_str k s)) as [[caps rest']|] eqn:E; [|discriminate].
    injection H as <- _. cbn [length groups]. f_equal. exact (IH _ _ _ E).
Qed.

(** The project is there whenever the task name pattern is found. *)
Lemma project_found name :
  is_Some (FindStringSubmatch taskNamePattern name !! 1%nat)
  <-> MatchString taskNamePattern name = true.
Proof.
  unfold FindStringSubmatch, MatchString.
  destruct (find taskNamePattern name) as [l|] eqn:E.
  - split; [reflexivity|]. intros _.
    assert (exists whole project, l = [whole; project]) as (whole & project & ->);
      [|eexists; reflexivity].
    clear -E. induction name as [|c name IH]; cbn [find] in E.
    + destruct (match_here taskNamePattern EmptyString) as [[caps rest]|] eqn:M;
        [|discriminate].
      injection E as <-. apply match_here_captures in M.
      destruct caps as [|p [|? ?]]; try discriminate. eexists _, _. reflexivity.
    + destruct (match_here taskNamePattern (String c name)) as [[caps rest]|] eqn:M;
        [|exact (IH E)].
      injection E as <-. apply match_here_captures in M.
      destruct caps as [|p [|? ?]]; try discriminate. eexists _, _. reflexivity.
  - split; [intros [? H]; discriminate|discriminate].
Qed.

End CreationFacts.

Module CreationProperties.
Import regexp Creation.

Lemma task_name_right p l q n :
  task_name_of p l q n
  = "projects/" +:+ p +:+ "/locations/" +:+ l +:+ "/queues/" +:+ q
    +:+ "/tasks/" +:+ n.
Proof.
  unfold task_name_of, queue_name_of. rewrite !RegexpFacts.app_assoc. reflexivity.
Qed.

(** The texts of the task-name pattern are the well-formed task names
    with lower-case identifiers and a numeric task id. *)
Lemma Lang_task_name body :
  Lang taskNamePattern body <->
  exists p l q n,
    body = task_name_of p l q n
    /\ is_id lower_id p /\ is_id lower_id l /\ is_id lower_id q /\ is_id digit n.
Proof.
  unfold taskNamePattern, is_id. cbn [Lang]. split.
  - intros (b1 & -> & p & b2 & -> & Hp & Hpa & b3 & -> & l & b4 & -> & Hl & Hla
            & b5 & -> & q & b6 & -> & Hq & Hqa & b7 & -> & n & b8 & -> & Hn & Hna
            & ->).
    exists p, l, q, n. rewrite task_name_right, RegexpFacts.app_nil_r.
    repeat split; assumption.
  - intros (p & l & q & n & -> & [Hp Hpa] & [Hl Hla] & [Hq Hqa] & [Hn Hna]).
    rewrite task_name_right.
    eexists. split; [reflexivity|]. exists p. eexists. split; [reflexivity|].
    split; [exact Hp|]. split; [exact Hpa|].
    eexists. split; [reflexivity|]. exists l. eexists. split; [reflexivity|].
    split; [exact Hl|]. split; [exact Hla|].
    eexists. split; [reflexivity|]. exists q. eexists. split; [reflexivity|].
    split; [exact Hq|]. split; [exact Hqa|].
    eexists. split; [reflexivity|]. exists n, EmptyString.
    rewrite RegexpFacts.app_nil_r. repeat split; assumption.
Qed.

Lemma setInitialAppEngine_None env name r :
  setInitialAppEngine env name r = None
  <-> MatchString taskNamePattern name = false.
Proof.
  unfold setInitialAppEngine. cbv zeta.
  pose proof (CreationFacts.project_found name) as Hfound.
  destruct (FindStringSubmatch taskNamePattern name !! 1%nat) as [project|].
  - split; [discriminate|]. intros H.
    destruct Hfound as [Hf _]. rewrite Hf in H; [discriminate|eexists; reflexivity].
  - split; [|reflexivity]. intros _.
    destruct (MatchString taskNamePattern name); [|reflexivity].
    destruct Hfound as [_ Hf]. destruct (Hf eq_refl) as [? ?]. discriminate.
Qed.

(** X13.  For a task with an App Engine request [setInitialTaskState]
    panics exactly when no part of the task name (the given one, or the
    generated one when none is given) has the form
    [projects/<id>/locations/<id>/queues/<id>/tasks/<number>] with
    identifiers of lower-case letters, digits and hyphens: the project
    is read from the name without a check that the pattern was found. *)
Theorem app_engine_task_needs_lower_name env taskState queueName r :
  tm_PayloadType taskState = Some (Task_AppEngineHttpRequest r) ->
  setInitialTaskState env taskState queueName = None <->
  ~ (exists pre p l q n post,
       (if is_empty (Name (tm_state taskState))
        then queueName +:+ "/tasks/" +:+ FormatUint (rand_Uint64 env)
        else Name (tm_state taskState))
       = pre +:+ task_name_of p l q n +:+ post
       /\ is_id lower_id p /\ is_id lower_id l /\ is_id lower_id q
       /\ is_id digit n).
Proof.
  intros Hpay. unfold setInitialTaskState. cbv zeta. rewrite Hpay.
  set (name := if is_empty (Name (tm_state taskState))
               then queueName +:+ "/tasks/" +:+ FormatUint (rand_Uint64 env)
               else Name (tm_state taskState)).
  destruct (setInitialAppEngine env name r) as [r'|] eqn:E.
  - split; [discriminate|]. intros Hno. exfalso. apply Hno.
    assert (MatchString taskNamePattern name = true) as Hm.
    { destruct (MatchString taskNamePattern name) eqn:M; [reflexivity|].
      pose proof (proj2 (setInitialAppEngine_None env name r) M). congruence. }
    apply RegexpFacts.MatchString_contains in Hm
      as (pre & body & post & Hname & HL).
    apply Lang_task_name in HL as (p & l & q & n & -> & Hids).
    exists pre, p, l, q, n, post. split; [exact Hname|exact Hids].
  - split; [|reflexivity]. intros _ (pre & p & l & q & n & post & Hname & Hids).
    pose proof (proj1 (setInitialAppEngine_None env name r) E) as Hfalse.
    assert (MatchString taskNamePattern name = true) as Hm; [|congruence].
    apply RegexpFacts.MatchString_contains.
    exists pre, (task_name_of p l q n), post. split; [exact Hname|].
    apply Lang_task_name. exists p, l, q, n. split; [reflexivity|exact Hids].
Qed.

(** Without an App Engine request nothing is read from the name. *)
Lemma setInitialTaskState_returns env taskState queueName :
  (forall r, tm_PayloadType taskState <> Some (Task_AppEngineHttpRequest r)) ->
  is_Some (setInitialTaskState env taskState queueName).
Proof.
  intros Hpay. unfold setInitialTaskState. cbv zeta.
  destruct (tm_PayloadType taskState) as [[r|r]|]; try (eexists; reflexivity).
  exfalso. exact (Hpay r eq_refl).
Qed.

(** X11.  [setInitialTaskState] is idempotent: applied again, with the
    same surroundings, to a message it has returned, it returns that
    message unchanged. *)
Theorem setInitialTaskState_idempotent env taskState queueName taskState' :
  setInitialTaskState env taskState queueName = Some taskState' ->
  setInitialTaskState env taskState' queueName = Some taskState'.
Proof.
  unfold setInitialTaskState. cbv zeta.
  set (name := if is_empty (Name (tm_state taskState))
               then queueName +:+ "/tasks/" +:+ FormatUint (rand_Uint64 env)
               else Name (tm_state taskState)).
  assert (Hname : is_empty name = false)
    by apply CreationFacts.effective_name_nonempty.
  assert (Hsched : forall o : option Timestamp,
            match match o with Some t => Some t | None => Some (now_second env) end
            with Some t => Some t | None => Some (now_second env) end
            = match o with Some t => Some t | None => Some (now_second env) end)
    by (intros [t|]; reflexivity).
  assert (Hdead : forall o : option Duration,
            match match o with
                  | Some d => Some d
                  | None => Some {| d_Seconds := 600; d_Nanos := 0 |}
                  end
            with
            | Some d => Some d
            | None => Some {| d_Seconds := 600; d_Nanos := 0 |}
            end
            = match o with
              | Some d => Some d
              | None => Some {| d_Seconds := 600; d_Nanos := 0 |}
              end)
    by (intros [d|]; reflexivity).
  destruct (tm_PayloadType taskState) as [[r|r]|].
  - intros H. injection H as <-.
    cbn [tm_state tm_View tm_PayloadType Name ScheduleTime CreateTime
         DispatchDeadline DispatchCount ResponseCount FirstAttempt LastAttempt].
    rewrite Hname, Hsched, Hdead, CreationFacts.setInitialHttp_idem. reflexivity.
  - destruct (setInitialAppEngine env name r) as [r'|] eqn:E; [|discriminate].
    intros H. injection H as <-.
    cbn [tm_state tm_View tm_PayloadType Name ScheduleTime CreateTime
         DispatchDeadline DispatchCount ResponseCount FirstAttempt LastAttempt].
    rewrite Hname, Hsched, Hdead.
    assert (Hagain : setInitialAppEngine env name r' = Some r');
      [|rewrite Hagain; reflexivity].
    clear -E. unfold setInitialAppEngine in *. cbv zeta in *.
    destruct (FindStringSubmatch taskNamePattern name !! 1%nat) as [project|];
      [|discriminate].
    injection E as <-.
    cbn [ae_HttpMethod ae_AppEngineRouting ae_RelativeUri ae_Headers ae_Body
         ar_Service ar_Version ar_Instance ar_Host].
    rewrite CreationFacts.default_method_idem.
    f_equal. f_equal.
    + destruct (is_empty (ae_RelativeUri r)) eqn:Er; [reflexivity|].
      rewrite Er. reflexivity.
    + set (ua := "AppEngine-Google; (+http://code.google.com/appengine)").
      set (h1 := <["User-Agent" := ua]> (ae_Headers r)).
      destruct (ae_Body r) as [body|].
      * destruct (h1 !! "Content-Type") as [ct|] eqn:Ect.
        -- assert (<["User-Agent" := ua]> h1 = h1) as ->
             by (subst h1; apply insert_insert_eq).
           rewrite Ect. reflexivity.
        -- assert (<["User-Agent" := ua]> (<["Content-Type" := "application/octet-stream"]> h1)
                   = <["Content-Type" := "application/octet-stream"]> h1) as ->.
           { apply insert_id. rewrite lookup_insert_ne by discriminate.
             subst h1. apply lookup_insert_eq. }
           rewrite lookup_insert_eq. reflexivity.
      * subst h1. apply insert_insert_eq.
  - intros H. injection H as <-.
    cbn [tm_state tm_View tm_PayloadType Name ScheduleTime CreateTime
         DispatchDeadline DispatchCount ResponseCount FirstAttempt LastAttempt].
    rewrite Hname, Hsched, Hdead. reflexivity.
Qed.

Lemma take_all s : take_str (String.length s) s = s.
Proof.
  induction s as [|c s IH]; [reflexivity|].
  cbn [String.length take_str]. rewrite IH. reflexivity.
Qed.

Lemma find_here re s captures rest :
  match_here re s = Some (captures, rest) ->
  find re s
  = Some (take_str (String.length s - String.length rest) s :: captures).
Proof. intros H. destruct s; cbn [find]; rewrite H; reflexivity. Qed.

Lemma match_here_lit text re rest :
  match_here (Lit text :: re) (text +:+ rest) = match_here re rest.
Proof. cbn [match_here]. rewrite RegexpFacts.strip_prefix_app. reflexivity. Qed.

(** A run that ends where its class ends is taken whole. *)
Lemma match_here_plus class re run rest r :
  all_in class run = true -> run <> EmptyString -> span class rest = O ->
  match_here re rest = Some r ->
  match_here (Plus class :: re) (run +:+ rest) = Some r.
Proof.
  intros Hall Hne Hstop Hrest. cbn [match_here].
  rewrite (RegexpFacts.span_app_stop class run rest Hall Hstop).
  destruct (String.length run) as [|k] eqn:El; [destruct run; [contradiction|discriminate]|].
  apply RegexpFacts.longest_first_top.
  rewrite <- El, RegexpFacts.drop_length_app. exact Hrest.
Qed.

Lemma match_here_group class re run rest captures rest' :
  all_in class run = true -> run <> EmptyString -> span class rest = O ->
  match_here re rest = Some (captures, rest') ->
  match_here (Group class :: re) (run +:+ rest) = Some (run :: captures, rest').
Proof.
  intros Hall Hne Hstop Hrest. cbn [match_here].
  rewrite (RegexpFacts.span_app_stop class run rest Hall Hstop).
  destruct (String.length run) as [|k] eqn:El; [destruct run; [contradiction|discriminate]|].
  apply RegexpFacts.longest_first_top.
  rewrite <- El, RegexpFacts.drop_length_app, Hrest, RegexpFacts.take_length_app.
  reflexivity.
Qed.

(** In a well-formed task name the search finds the whole name, and the
    project is its first identifier. *)
Lemma find_task_name p l q n :
  is_id lower_id p -> is_id lower_id l -> is_id lower_id q -> is_id digit n ->
  find taskNamePattern (task_name_of p l q n) = Some [task_name_of p l q n; p].
Proof.
  intros [Hp Hpa] [Hl Hla] [Hq Hqa] [Hn Hna].
  assert (Hm : match_here taskNamePattern (task_name_of p l q n)
               = Some ([p], EmptyString)).
  { rewrite task_name_right. unfold taskNamePattern.
    rewrite match_here_lit.
    apply match_here_group; [exact Hpa|exact Hp|reflexivity|].
    rewrite match_here_lit.
    apply match_here_plus; [exact Hla|exact Hl|reflexivity|].
    rewrite match_here_lit.
    apply match_here_plus; [exact Hqa|exact Hq|reflexivity|].
    rewrite match_here_lit.
    rewrite <- (RegexpFacts.app_nil_r n).
    apply match_here_plus; [exact Hna|exact Hn|reflexivity|]. reflexivity. }
  rewrite (find_here _ _ _ _ Hm). cbn [String.length].
  rewrite Nat.sub_0_r, take_all. reflexivity.
Qed.

(** X12.  For a task with an App Engine request and a well-formed name
    (lower-case identifiers, numeric id) [setInitialTaskState] returns,
    and the routing host is the project's [appspot.com] domain, or the
    emulator host when that is set, prefixed by the service, then the
    version, then the instance, each when set. *)
Theorem app_engine_host env taskState queueName r p l q n :
  tm_PayloadType taskState = Some (Task_AppEngineHttpRequest r) ->
  Name (tm_state taskState) = task_name_of p l q n ->
  is_id lower_id p -> is_id lower_id l -> is_id lower_id q -> is_id digit n ->
  exists taskState' r' routing,
    setInitialTaskState env taskState queueName = Some taskState'
    /\ Name (tm_state taskState') = task_name_of p l q n
    /\ tm_PayloadType taskState' = Some (Task_AppEngineHttpRequest r')
    /\ ae_AppEngineRouting r' = Some routing
    /\ ar_Host routing
       = prefix_host (ar_Instance (routing_of r))
           (prefix_host (ar_Version (routing_of r))
              (prefix_host (ar_Service (routing_of r))
                 (if is_empty (APP_ENGINE_EMULATOR_HOST env)
                  then p +:+ ".appspot.com"
                  else APP_ENGINE_EMULATOR_HOST env))).
Proof.
  intros Hpay Hname Hp Hl Hq Hn.
  unfold setInitialTaskState. cbv zeta. rewrite Hpay, Hname.
  assert (Hne : is_empty (task_name_of p l q n) = false)
    by (rewrite task_name_right; reflexivity).
  rewrite Hne. unfold setInitialAppEngine. cbv zeta.
  unfold FindStringSubmatch. rewrite (find_task_name p l q n Hp Hl Hq Hn).
  cbn [lookup list_lookup].
  eexists _, _, _. split; [reflexivity|].
  cbn [tm_state tm_PayloadType Name ae_AppEngineRouting ar_Host].
  split; [reflexivity|]. split; [reflexivity|]. split; [reflexivity|].
  unfold routing_of. reflexivity.
Qed.

(** X10.  Of the state fields of a task message [setInitialTaskState]
    replaces the creation time (the clock, whole seconds) and fills the
    name, the schedule time and the dispatch deadline only when they are
    unset; a name, schedule time or deadline given by the caller is kept,
    and so are the dispatch and response counts and the two attempt
    records, which are not reset. *)
Theorem setInitialTaskState_state_fields env taskState queueName taskState' :
  setInitialTaskState env taskState queueName = Some taskState' ->
  (Name (tm_state taskState) <> EmptyString ->
   Name (tm_state taskState') = Name (tm_state taskState))
  /\ (Name (tm_state taskState) = EmptyString ->
      Name (tm_state taskState')
      = queueName +:+ "/tasks/" +:+ FormatUint (rand_Uint64 env))
  /\ CreateTime (tm_state taskState')
     = Some {| ts_Seconds := ts_Seconds (now_first env); ts_Nanos := 0 |}
  /\ (forall t, ScheduleTime (tm_state taskState) = Some t ->
        ScheduleTime (tm_state taskState') = Some t)
  /\ (ScheduleTime (tm_state taskState) = None ->
      ScheduleTime (tm_state taskState') = Some (now_second env))
  /\ (forall d, DispatchDeadline (tm_state taskState) = Some d ->
        DispatchDeadline (tm_state taskState') = Some d)
  /\ (DispatchDeadline (tm_state taskState) = None ->
      DispatchDeadline (tm_state taskState')
      = Some {| d_Seconds := 600; d_Nanos := 0 |})
  /\ DispatchCount (tm_state taskState') = DispatchCount (tm_state taskState)
  /\ ResponseCount (tm_state taskState') = ResponseCount (tm_state taskState)
  /\ FirstAttempt (tm_state taskState') = FirstAttempt (tm_state taskState)
  /\ LastAttempt (tm_state taskState') = LastAttempt (tm_state taskState)
  /\ tm_View taskState' = BASIC.
Proof.
  unfold setInitialTaskState. cbv zeta. intros H.
  assert (Hst : exists payload,
            taskState' =
            {| tm_state :=
                 {| Name := if is_empty (Name (tm_state taskState))
                            then queueName +:+ "/tasks/"
                                 +:+ FormatUint (rand_Uint64 env)
                            else Name (tm_state taskState);
                    ScheduleTime :=
                      match ScheduleTime (tm_state taskState) with
                      | Some t => Some t
                      | None => Some (now_second env)
                      end;
                    CreateTime :=
                      Some {| ts_Seconds := ts_Seconds (now_first env);
                              ts_Nanos := 0 |};
                    DispatchDeadline :=
                      match DispatchDeadline (tm_state taskState) with
                      | Some d => Some d
                      | None => Some {| d_Seconds := 600; d_Nanos := 0 |}
                      end;
                    DispatchCount := DispatchCount (tm_state taskState);
                    ResponseCount := ResponseCount (tm_state taskState);
                    FirstAttempt := FirstAttempt (tm_state taskState);
                    LastAttempt := LastAttempt (tm_state taskState) |};
               tm_View := BASIC; tm_PayloadType := payload |}).
  { destruct (tm_PayloadType taskState) as [[r|r]|].
    - injection H as <-. eexists. reflexivity.
    - destruct (setInitialAppEngine env _ r); [|discriminate].
      injection H as <-. eexists. reflexivity.
    - injection H as <-. eexists. reflexivity. }
  destruct Hst as [payload ->].
  cbn [tm_state tm_View Name ScheduleTime CreateTime DispatchDeadline
       DispatchCount ResponseCount FirstAttempt LastAttempt].
  split; [intros Hn; apply CreationFacts.is_empty_false in Hn; rewrite Hn; reflexivity|].
  split; [intros ->; reflexivity|]. split; [reflexivity|].
  split; [intros t ->; reflexivity|]. split; [intros ->; reflexivity|].
  split; [intros d ->; reflexivity|]. split; [intros ->; reflexivity|].
  repeat split.
Qed.

(** X14.  For a task with an HTTP request [setInitialTaskState] always
    returns; it sets the [User-Agent] header to [Google-Cloud-Tasks],
    replacing one given by the caller, and keeps every other header, the
    URL and the body; an unspecified method becomes [POST] and a given
    one is kept. *)
Theorem http_request_headers env taskState queueName r :
  tm_PayloadType taskState = Some (Task_HttpRequest r) ->
  exists taskState' r',
    setInitialTaskState env taskState queueName = Some taskState'
    /\ tm_PayloadType taskState' = Some (Task_HttpRequest r')
    /\ hr_Headers r' !! "User-Agent" = Some "Google-Cloud-Tasks"
    /\ (forall key, key <> "User-Agent" ->
          hr_Headers r' !! key = hr_Headers r !! key)
    /\ hr_Url r' = hr_Url r
    /\ hr_Body r' = hr_Body r
    /\ hr_HttpMethod r' <> HTTP_METHOD_UNSPECIFIED
    /\ (hr_HttpMethod r = HTTP_METHOD_UNSPECIFIED -> hr_HttpMethod r' = POST)
    /\ (hr_HttpMethod r <> HTTP_METHOD_UNSPECIFIED ->
        hr_HttpMethod r' = hr_HttpMethod r).
Proof.
  intros Hpay. unfold setInitialTaskState. cbv zeta. rewrite Hpay.
  eexists _, _. split; [reflexivity|]. cbn [tm_PayloadType].
  split; [reflexivity|]. unfold setInitialHttp.
  cbn [hr_Url hr_HttpMethod hr_Headers hr_Body].
  split; [apply lookup_insert_eq|].
  split; [intros key Hne; apply lookup_insert_ne; congruence|].
  split; [reflexivity|]. split; [reflexivity|].
  split; [apply CreationFacts.default_method_set|].
  split; [intros ->; reflexivity|].
  intros Hm. destruct (hr_HttpMethod r); [contradiction|reflexivity..].
Qed.

End CreationProperties.

(** An App Engine task created without a name in a queue whose project
    id has a capital letter, as [CreateQueue] admits: the creation panics. *)
Example app_engine_capital_project_panics :
  regexp.MatchString queueNamePattern "projects/Demo/locations/l/queues/q" = true
  /\ Creation.setInitialTaskState sample_ambient
       (sample_message EmptyString
          (Some (Creation.Task_AppEngineHttpRequest sample_app_engine_request)))
       "projects/Demo/locations/l/queues/q"
     = None.
Proof. split; vm_compute; reflexivity. Qed.

(** X13, at an App Engine task named with a capital project id. *)
Lemma app_engine_task_needs_lower_name_witness :
  Creation.setInitialTaskState sample_ambient
    (sample_message "projects/Demo/locations/l/queues/q/tasks/1"
       (Some (Creation.Task_AppEngineHttpRequest sample_app_engine_request)))
    "projects/Demo/locations/l/queues/q"
  = None <->
  ~ (exists pre p l q n post,
       "projects/Demo/locations/l/queues/q/tasks/1"
       = pre +:+ task_name_of p l q n +:+ post
       /\ is_id regexp.lower_id p /\ is_id regexp.lower_id l
       /\ is_id regexp.lower_id q /\ is_id regexp.digit n).
Proof.
  apply (CreationProperties.app_engine_task_needs_lower_name sample_ambient
           (sample_message "projects/Demo/locations/l/queues/q/tasks/1"
              (Some (Creation.Task_AppEngineHttpRequest sample_app_engine_request)))
           "projects/Demo/locations/l/queues/q" sample_app_engine_request).
  reflexivity.
Defined.

(** X12, at the service [worker], version [v2] of project [demo]. *)
Lemma app_engine_host_witness :
  exists taskState' r' routing,
    Creation.setInitialTaskState sample_ambient
      (sample_message "projects/demo/locations/l/queues/q/tasks/7"
         (Some (Creation.Task_AppEngineHttpRequest sample_app_engine_request)))
      "projects/demo/locations/l/queues/q"
    = Some taskState'
    /\ Name (Creation.tm_state taskState') = task_name_of "demo" "l" "q" "7"
    /\ Creation.tm_PayloadType taskState'
       = Some (Creation.Task_AppEngineHttpRequest r')
    /\ Creation.ae_AppEngineRouting r' = Some routing
    /\ Creation.ar_Host routing
       = Creation.prefix_host EmptyString
           (Creation.prefix_host "v2"
              (Creation.prefix_host "worker" ("demo" +:+ ".appspot.com"))).
Proof.
  apply (CreationProperties.app_engine_host sample_ambient
           (sample_message "projects/demo/locations/l/queues/q/tasks/7"
              (Some (Creation.Task_AppEngineHttpRequest sample_app_engine_request)))
           "projects/demo/locations/l/queues/q" sample_app_engine_request
           "demo" "l" "q" "7").
  - reflexivity.
  - reflexivity.
  - split; [discriminate|reflexivity].
  - split; [discriminate|reflexivity].
  - split; [discriminate|reflexivity].
  - split; [discriminate|reflexivity].
Defined.

Example app_engine_host_value :
  Creation.prefix_host EmptyString
    (Creation.prefix_host "v2"
       (Creation.prefix_host "worker" ("demo" +:+ ".appspot.com")))
  = "v2.worker.demo.appspot.com".
Proof. reflexivity. Qed.

(** X11, at an HTTP task created without a name. *)
Lemma setInitialTaskState_idempotent_witness :
  exists taskState',
    Creation.setInitialTaskState sample_ambient
      (sample_message EmptyString
         (Some (Creation.Task_HttpRequest sample_http_request)))
      sample_queue_name
    = Some taskState'
    /\ Creation.setInitialTaskState sample_ambient taskState' sample_queue_name
       = Some taskState'.
Proof.
  eexists. split; [reflexivity|].
  apply (CreationProperties.setInitialTaskState_idempotent sample_ambient
           (sample_message EmptyString
              (Some (Creation.Task_HttpRequest sample_http_request)))
           sample_queue_name).
  reflexivity.
Defined.

(** X10, at a message that comes with counters and no name. *)
Lemma setInitialTaskState_state_fields_witness :
  exists taskState',
    Creation.setInitialTaskState sample_ambient
      (sample_message EmptyString None) sample_queue_name
    = Some taskState'
    /\ Name (Creation.tm_state taskState')
       = sample_queue_name +:+ "/tasks/" +:+ Creation.FormatUint 42
    /\ CreateTime (Creation.tm_state taskState') = Some (mkTimestamp 1000 0)
    /\ ScheduleTime (Creation.tm_state taskState') = Some (mkTimestamp 1000 900)
    /\ DispatchDeadline (Creation.tm_state taskState') = Some (mkDuration 600 0)
    /\ DispatchCount (Creation.tm_state taskState') = 7
    /\ ResponseCount (Creation.tm_state taskState') = 3.
Proof.
  eexists. split; [reflexivity|].
  destruct (CreationProperties.setInitialTaskState_state_fields sample_ambient
              (sample_message EmptyString None) sample_queue_name _ eq_refl)
    as (_ & Hname & Hcreate & _ & Hsched & _ & Hdead & Hdc & Hrc & _).
  split; [exact (Hname eq_refl)|]. split; [exact Hcreate|].
  split; [exact (Hsched eq_refl)|]. split; [exact (Hdead eq_refl)|].
  split; [exact Hdc|exact Hrc].
Defined.

(** X14, at a request that comes with its own [User-Agent]. *)
Lemma http_request_headers_witness :
  exists taskState' r',
    Creation.setInitialTaskState sample_ambient
      (sample_message EmptyString
         (Some (Creation.Task_HttpRequest sample_http_request)))
      sample_queue_name
    = Some taskState'
    /\ Creation.tm_PayloadType taskState' = Some (Creation.Task_HttpRequest r')
    /\ Creation.hr_Headers r' !! "User-Agent" = Some "Google-Cloud-Tasks"
    /\ (forall key, key <> "User-Agent" ->
          Creation.hr_Headers r' !! key
          = Creation.hr_Headers sample_http_request !! key)
    /\ Creation.hr_Url r' = Creation.hr_Url sample_http_request
    /\ Creation.hr_Body r' = Creation.hr_Body sample_http_request
    /\ Creation.hr_HttpMethod r' <> Creation.HTTP_METHOD_UNSPECIFIED
    /\ (Creation.hr_HttpMethod sample_http_request = Creation.HTTP_METHOD_UNSPECIFIED ->
        Creation.hr_HttpMethod r' = Creation.POST)
    /\ (Creation.hr_HttpMethod sample_http_request <> Creation.HTTP_METHOD_UNSPECIFIED ->
        Creation.hr_HttpMethod r' = Creation.hr_HttpMethod sample_http_request).
Proof.
  apply (CreationProperties.http_request_headers sample_ambient
           (sample_message EmptyString
              (Some (Creation.Task_HttpRequest sample_http_request)))
           sample_queue_name sample_http_request).
  reflexivity.
Defined.

(** ** A queue after its creation *)

Module QueueLifecycle.
Import Registry Handlers.

(** X15.  When [CreateQueue] succeeds the name was free; afterwards
    [GetQueue] returns the state of the queue that [NewQueue] built,
    [ListQueues] lists it, a second [CreateQueue] with the same name and
    a valid parent is refused as already existing, and every other queue
    and every task entry is as before. *)
Theorem CreateQueue_then_lookup
    (NewQueue : string -> option QueueState -> Queue * option QueueState)
    s parent queueState st s' :
  CreateQueue NewQueue s parent queueState = Resp (st, s') ->
  let name := GetQueueName queueState in
  qs s !! name = None
  /\ st = (NewQueue name queueState).2
  /\ GetQueue s' name = Resp (q_state (NewQueue name queueState).1)
  /\ q_state (NewQueue name queueState).1 ∈ ListQueues s'
  /\ CreateQueue NewQueue s' parent queueState = Fail errQueueExists
  /\ (forall other, other <> name -> qs s' !! other = qs s !! other)
  /\ ts s' = ts s.
Proof.
  unfold CreateQueue. cbv zeta.
  destruct (negb (regexp.MatchString queueNamePattern (GetQueueName queueState)));
    [discriminate|].
  destruct (negb (regexp.MatchString parentPattern parent)); [discriminate|].
  destruct (qs s !! GetQueueName queueState) as [[?|]|] eqn:E;
    [discriminate|discriminate|].
  destruct (NewQueue (GetQueueName queueState) queueState) as [queue st0] eqn:EN.
  intros H. injection H as <- <-. cbn [fst snd qs ts].
  split; [reflexivity|]. split; [reflexivity|].
  rewrite lookup_insert_eq.
  split; [unfold GetQueue, qs_index; cbn [qs]; rewrite lookup_insert_eq; reflexivity|].
  split.
  { apply (HandlerFacts.ListQueues_live _ (GetQueueName queueState) queue).
    cbn [qs]. apply lookup_insert_eq. }
  split; [reflexivity|]. split; [|reflexivity].
  intros other Hne. apply lookup_insert_ne. congruence.
Qed.

End QueueLifecycle.

(** X15, at the first queue of a new server. *)
Lemma CreateQueue_then_lookup_witness :
  let queueState := Some (sample_queue_state sample_queue_name) in
  let s' := sample_server_live in
  Registry.qs Registry.NewServer !! sample_queue_name = None
  /\ queueState = (sample_NewQueue sample_queue_name queueState).2
  /\ Registry.GetQueue s' sample_queue_name
     = Registry.Resp (q_state (sample_NewQueue sample_queue_name queueState).1)
  /\ q_state (sample_NewQueue sample_queue_name queueState).1
     ∈ Handlers.ListQueues s'
  /\ Handlers.CreateQueue sample_NewQueue s' "projects/p/locations/l" queueState
     = Registry.Fail Handlers.errQueueExists
  /\ (forall other, other <> sample_queue_name ->
        Registry.qs s' !! other = Registry.qs Registry.NewServer !! other)
  /\ Registry.ts s' = Registry.ts Registry.NewServer.
Proof.
  apply (QueueLifecycle.CreateQueue_then_lookup sample_NewQueue
           Registry.NewServer "projects/p/locations/l"
           (Some (sample_queue_state sample_queue_name))
           (Some (sample_queue_state sample_queue_name)) sample_server_live).
  vm_compute. reflexivity.
Defined.
